(** * The record filter of the list-organiser application

    A shallow embedding of the filtering logic of the records screen
    ([app/(tabs)/myForm/[formId]/records.jsx]: [getFieldCategories],
    [getOperatorsForFieldType], [applyFilters]) and of the query builders of
    the API service ([filterRecordsByCriteria], [filterRecordsSimple],
    [getRecordsByFormId]), with the properties of the specification that
    concern them.

    Modelling conventions.
    - A JavaScript string is a [string] whose characters are the code units
      U+0000 to U+00FF; code units above U+00FF are outside the model.
    - A JavaScript number is NaN, an infinity, or an exact decimal
      [m * 10^e].  Rounding to binary64, overflow and underflow are not
      modelled; the sign of zero is not kept (no operation used here
      observes it).
    - A stored record value is a JSON scalar: null, a boolean, a number or a
      string.  Arrays and objects as stored values are outside the model (the
      application stores photos and locations as JSON text, i.e. strings).
    - [categories[fieldType]] is modelled on the own properties of the
      category table; field types that name a property every object inherits
      (such as [constructor]) are outside the model. *)

From Stdlib Require Import ZArith NArith Ascii DecimalString.
From stdpp Require Import gmap strings list.

(** ** The JavaScript built-ins used by the filter *)

Module JS.

(** *** Strings *)

Definition code (c : ascii) : N := N_of_ascii c.

(** WhiteSpace and LineTerminator code units below U+0100: TAB, LF, VT, FF,
    CR, SP and NBSP. *)
Definition isWhiteSpace (c : ascii) : bool :=
  let n := code c in
  ((9 <=? n) && (n <=? 13) || (n =? 32) || (n =? 160))%N.

Fixpoint trimStart (s : string) : string :=
  match s with
  | String c s' => if isWhiteSpace c then trimStart s' else s
  | EmptyString => EmptyString
  end.

Definition trimEnd (s : string) : string :=
  String.rev (trimStart (String.rev s)).

(** [String.prototype.trim] *)
Definition trim (s : string) : string := trimEnd (trimStart s).

(** Upper-case letters below U+0100 are A-Z and U+00C0-U+00DE except the
    multiplication sign U+00D7; each has its lower-case form 32 above. *)
Definition toLowerChar (c : ascii) : ascii :=
  let n := code c in
  if ((65 <=? n) && (n <=? 90)
      || (192 <=? n) && (n <=? 222) && negb (n =? 215))%N
  then ascii_of_N (n + 32) else c.

(** [String.prototype.toLowerCase] *)
Fixpoint toLowerCase (s : string) : string :=
  match s with
  | String c s' => String (toLowerChar c) (toLowerCase s')
  | EmptyString => EmptyString
  end.

(** [s.startsWith(t)] *)
Definition startsWith (s t : string) : bool := String.prefix t s.

(** [s.includes(t)] *)
Fixpoint includes (s t : string) : bool :=
  startsWith s t ||
  match s with
  | String _ s' => includes s' t
  | EmptyString => false
  end.

Fixpoint dropChars (n : nat) (s : string) : string :=
  match n, s with
  | S n', String _ s' => dropChars n' s'
  | _, _ => s
  end.

Fixpoint takeChars (n : nat) (s : string) : string :=
  match n, s with
  | S n', String c s' => String c (takeChars n' s')
  | _, _ => EmptyString
  end.

Fixpoint repeatChar (c : ascii) (n : nat) : string :=
  match n with
  | O => EmptyString
  | S n' => String c (repeatChar c n')
  end.

(** *** [encodeURIComponent] *)

(** The characters left as they are: letters, digits and [- _ . ! ~ * ' ( )]. *)
Definition isUnreserved (c : ascii) : bool :=
  let n := code c in
  ((65 <=? n) && (n <=? 90) || (97 <=? n) && (n <=? 122)
   || (48 <=? n) && (n <=? 57)
   || (n =? 45) || (n =? 95) || (n =? 46) || (n =? 33) || (n =? 126)
   || (n =? 42) || (n =? 39) || (n =? 40) || (n =? 41))%N.

Definition hexDigit (n : N) : ascii :=
  if (n <? 10)%N then ascii_of_N (48 + n) else ascii_of_N (55 + n).

Definition percentByte (n : N) : string :=
  String "%" (String (hexDigit (n / 16)) (String (hexDigit (n mod 16)) EmptyString)).

(** The UTF-8 encoding of a code unit below U+0100 is one byte below U+0080
    and two bytes from there on. *)
Definition encodeChar (c : ascii) : string :=
  let n := code c in
  if isUnreserved c then String c EmptyString
  else if (n <? 128)%N then percentByte n
  else percentByte (192 + n / 64) +:+ percentByte (128 + n mod 64).

Fixpoint encodeURIComponent (s : string) : string :=
  match s with
  | String c s' => encodeChar c +:+ encodeURIComponent s'
  | EmptyString => EmptyString
  end.

(** *** Numbers *)

Inductive Number : Type :=
| NaN
| Infinity (negative : bool)
| Dec (m e : Z).

Definition isNaN (n : Number) : bool :=
  match n with NaN => true | _ => false end.

Definition isFiniteNumber (n : Number) : bool :=
  match n with Dec _ _ => true | _ => false end.

Definition isZero (n : Number) : bool :=
  match n with Dec m _ => (m =? 0)%Z | _ => false end.

Definition compareDec (m1 e1 m2 e2 : Z) : comparison :=
  let e := Z.min e1 e2 in
  (m1 * 10 ^ (e1 - e) ?= m2 * 10 ^ (e2 - e))%Z.

(** The order of two numbers; [None] when one of them is NaN. *)
Definition compare (a b : Number) : option comparison :=
  match a, b with
  | NaN, _ | _, NaN => None
  | Infinity s, Infinity t =>
      Some (if s then (if t then Eq else Lt) else (if t then Gt else Eq))
  | Infinity s, Dec _ _ => Some (if s then Lt else Gt)
  | Dec _ _, Infinity t => Some (if t then Gt else Lt)
  | Dec m1 e1, Dec m2 e2 => Some (compareDec m1 e1 m2 e2)
  end.

(** [a === b], [a > b], [a < b], [a >= b], [a <= b] on numbers *)
Definition strictEq (a b : Number) : bool :=
  match compare a b with Some Eq => true | _ => false end.
Definition gt (a b : Number) : bool :=
  match compare a b with Some Gt => true | _ => false end.
Definition lt (a b : Number) : bool :=
  match compare a b with Some Lt => true | _ => false end.
Definition ge (a b : Number) : bool :=
  match compare a b with Some Gt | Some Eq => true | _ => false end.
Definition le (a b : Number) : bool :=
  match compare a b with Some Lt | Some Eq => true | _ => false end.

(** *** Numeric literals in strings *)

Definition digitOf (radix : N) (c : ascii) : option Z :=
  let n := code c in
  let d := (if (48 <=? n) && (n <=? 57) then Some (n - 48)
            else if (97 <=? n) && (n <=? 102) then Some (n - 87)
            else if (65 <=? n) && (n <=? 70) then Some (n - 55)
            else None)%N in
  match d with
  | Some v => if (v <? radix)%N then Some (Z.of_N v) else None
  | None => None
  end.

(** The longest run of digits at the head of [s]: the number read (from
    [acc] on), how many digits were read, and what follows them. *)
Fixpoint scanDigits (radix : N) (s : string) (acc count : Z) : Z * Z * string :=
  match s with
  | String c s' =>
      match digitOf radix c with
      | Some d => scanDigits radix s' (Z.of_N radix * acc + d) (count + 1)
      | None => (acc, count, s)
      end
  | EmptyString => (acc, count, s)
  end%Z.

Definition scanSign (s : string) : bool * string :=
  match s with
  | String "+" s' => (false, s')
  | String "-" s' => (true, s')
  | _ => (false, s)
  end.

(** ExponentPart: [e] or [E], an optional sign and at least one digit.
    Without a complete exponent part nothing is consumed. *)
Definition scanExponent (s : string) : Z * string :=
  match s with
  | String c s1 =>
      if (code c =? 101)%N || (code c =? 69)%N then
        let '(neg, s2) := scanSign s1 in
        let '(v, n, rest) := scanDigits 10 s2 0 0 in
        if (n =? 0)%Z then (0%Z, s) else ((if neg then - v else v)%Z, rest)
      else (0%Z, s)
  | EmptyString => (0%Z, s)
  end.

(** StrUnsignedDecimalLiteral, longest prefix:
    [Infinity], [digits . digits? exp?], [. digits exp?] or [digits exp?]. *)
Definition scanUnsigned (s : string) : option (Number * string) :=
  if startsWith s "Infinity" then Some (Infinity false, dropChars 8 s)
  else
    let '(i, ni, s1) := scanDigits 10 s 0 0 in
    let '(m, nf, dot, s2) :=
      match s1 with
      | String "." t =>
          let '(v, n, r) := scanDigits 10 t i 0 in (v, n, true, r)
      | _ => (i, 0%Z, false, s1)
      end in
    if (ni + nf =? 0)%Z then None
    else
      let '(ex, s3) := scanExponent s2 in
      Some (Dec m (ex - nf), s3).

Definition negate (n : Number) : Number :=
  match n with
  | NaN => NaN
  | Infinity s => Infinity (negb s)
  | Dec m e => Dec (- m) e
  end.

(** StrDecimalLiteral, longest prefix. *)
Definition scanDecimal (s : string) : option (Number * string) :=
  let '(neg, s1) := scanSign s in
  match scanUnsigned s1 with
  | Some (n, rest) => Some (if neg then negate n else n, rest)
  | None => None
  end.

(** [parseFloat] of a string: leading white space is skipped and the longest
    prefix that is a decimal literal is read; NaN when there is none. *)
Definition parseFloat (s : string) : Number :=
  match scanDecimal (trimStart s) with
  | Some (n, _) => n
  | None => NaN
  end.

(** NonDecimalIntegerLiteral: [0x], [0o] or [0b] (either case) and at least
    one digit of the radix, nothing else. *)
Definition scanNonDecimal (s : string) : option Number :=
  match s with
  | String "0" (String p t) =>
      let n := code p in
      let radix :=
        (if (n =? 120) || (n =? 88) then Some 16
         else if (n =? 111) || (n =? 79) then Some 8
         else if (n =? 98) || (n =? 66) then Some 2
         else None)%N in
      match radix with
      | Some r =>
          match scanDigits r t 0 0 with
          | (v, n, EmptyString) => if (n =? 0)%Z then None else Some (Dec v 0)
          | _ => None
          end
      | None => None
      end
  | _ => None
  end.

(** StringToNumber: the whole string, white space trimmed, must be a numeric
    literal; the empty string is 0. *)
Definition StringToNumber (s : string) : Number :=
  let t := trim s in
  match t with
  | EmptyString => Dec 0 0
  | _ =>
      match scanNonDecimal t with
      | Some n => n
      | None =>
          match scanDecimal t with
          | Some (n, EmptyString) => n
          | _ => NaN
          end
      end
  end.

(** *** Number to string *)

Definition digitsOfZ (z : Z) : string := NilZero.string_of_uint (N.to_uint (Z.to_N z)).

Fixpoint dropZeros (s : string) : string :=
  match s with
  | String "0" s' => dropZeros s'
  | _ => s
  end.

(** Number::toString in radix 10: the significant digits [ds] (there are [k]
    of them) and the position [n] of the decimal point. *)
Definition NumberToString (x : Number) : string :=
  match x with
  | NaN => "NaN"
  | Infinity s => if s then "-Infinity" else "Infinity"
  | Dec m e =>
      if (m =? 0)%Z then "0"
      else
        let all := digitsOfZ (Z.abs m) in
        let ds := String.rev (dropZeros (String.rev all)) in
        let k := Z.of_nat (String.length ds) in
        let n := (Z.of_nat (String.length all) + e)%Z in
        let sign := if (m <? 0)%Z then "-" else "" in
        sign +:+
        (if (k <=? n)%Z && (n <=? 21)%Z then
           ds +:+ repeatChar "0" (Z.to_nat (n - k))
         else if (0 <? n)%Z && (n <=? 21)%Z then
           takeChars (Z.to_nat n) ds +:+ "." +:+ dropChars (Z.to_nat n) ds
         else if (-6 <? n)%Z && (n <=? 0)%Z then
           "0." +:+ repeatChar "0" (Z.to_nat (- n)) +:+ ds
         else
           let ex := (n - 1)%Z in
           let es := (if (ex <? 0)%Z then "-" else "+") +:+ digitsOfZ (Z.abs ex) in
           if (k =? 1)%Z then ds +:+ "e" +:+ es
           else takeChars 1 ds +:+ "." +:+ dropChars 1 ds +:+ "e" +:+ es)
  end.

(** *** Values *)

Inductive Value : Type :=
| VNull
| VBool (b : bool)
| VNum (n : Number)
| VStr (s : string).

(** ToBoolean: the truthiness of a value. *)
Definition truthy (v : Value) : bool :=
  match v with
  | VNull => false
  | VBool b => b
  | VNum n => negb (isNaN n) && negb (isZero n)
  | VStr s => negb (String.eqb s "")
  end.

Definition ToString (v : Value) : string :=
  match v with
  | VNull => "null"
  | VBool b => if b then "true" else "false"
  | VNum n => NumberToString n
  | VStr s => s
  end.

Definition ToNumber (v : Value) : Number :=
  match v with
  | VNull => Dec 0 0
  | VBool b => if b then Dec 1 0 else Dec 0 0
  | VNum n => n
  | VStr s => StringToNumber s
  end.

(** [typeof v === 'string'] *)
Definition isString (v : Value) : bool :=
  match v with VStr _ => true | _ => false end.

(** The global [isFinite]: its argument is converted to a number first. *)
Definition isFinite (v : Value) : bool := isFiniteNumber (ToNumber v).

End JS.

(** ** The data of the records screen *)

(** A field definition, as the backend returns it. *)
Module Field.
Record t : Type := mk {
  name : string;
  field_type : string;
  is_num : bool
}.
End Field.

(** A record: [values] lists the entries of the record's [values] object in
    the order of [Object.entries]; a missing [values] has no entry. *)
Module Rec.
Record t : Type := mk {
  id : Z;
  values : list (string * JS.Value)
}.
End Rec.

(** What is known of the data of one field type. *)
Module Category.
Record t : Type := mk {
  label : string;
  hasText : bool;
  hasNumeric : bool
}.

(** [category.hasNumeric = true] *)
Definition setHasNumeric (c : t) : t := mk (label c) (hasText c) true.

(** [category.hasText = true] *)
Definition setHasText (c : t) : t := mk (label c) true (hasNumeric c).
End Category.

(** A filter object.  The records screen builds filters with [fieldType],
    [operator], [value], [logic] and [id]; the query builder of the API
    service reads [field], [operator], [value] and [isNumeric].  [field] is the
    text that the template literal makes of the property, [isNumeric] its
    truthiness. *)
Module Filter.
Record t : Type := mk {
  id : Z;
  fieldType : string;
  field : string;
  operator : string;
  value : string;
  logic : string;
  isNumeric : bool
}.

Definition setLogic (l : string) (f : t) : t :=
  mk (id f) (fieldType f) (field f) (operator f) (value f) l (isNumeric f).
End Filter.

(** An entry of an operator list. *)
Module Op.
Record t : Type := mk {
  value : string;
  label : string
}.
End Op.

(** The operator names that the [switch] statements distinguish. *)
Inductive Operator : Type :=
| OpEq | OpIlike | OpLike | OpGt | OpLt | OpGte | OpLte.

(** The [case] that an operator string selects; [None] selects [default]. *)
Definition operatorOf (operator : string) : option Operator :=
  if String.eqb operator "eq" then Some OpEq
  else if String.eqb operator "ilike" then Some OpIlike
  else if String.eqb operator "like" then Some OpLike
  else if String.eqb operator "gt" then Some OpGt
  else if String.eqb operator "lt" then Some OpLt
  else if String.eqb operator "gte" then Some OpGte
  else if String.eqb operator "lte" then Some OpLte
  else None.

(** ** The records screen *)

Section RecordsScreen.

(** The component state that the filter code closes over. *)
Variable fields : list Field.t.
Variable records : list Rec.t.

(** The initial [categories] object of [getFieldCategories]. *)
Definition initialCategories : gmap string Category.t :=
  <["text" := Category.mk "Text Fields" false false]>
  (<["multiline" := Category.mk "Multiline Fields" false false]>
  (<["dropdown" := Category.mk "Dropdown Fields" false false]> ∅)).

(** [fields.find(f => f.name === fieldName)] *)
Definition findField (fieldName : string) : option Field.t :=
  List.find (fun f => String.eqb (Field.name f) fieldName) fields.

(** The body of the first [forEach]: a field definition of one of the three
    types marks its category numeric or text. *)
Definition scanField (categories : gmap string Category.t) (field : Field.t)
  : gmap string Category.t :=
  let ft := Field.field_type field in
  if String.eqb ft "text" || String.eqb ft "multiline" || String.eqb ft "dropdown"
  then
    if Field.is_num field
    then alter Category.setHasNumeric ft categories
    else alter Category.setHasText ft categories
  else categories.

(** [value && !isNaN(parseFloat(value)) && isFinite(value)] *)
Definition isNumericValue (value : JS.Value) : bool :=
  JS.truthy value
  && negb (JS.isNaN (JS.parseFloat (JS.ToString value)))
  && JS.isFinite value.

(** [value && typeof value === 'string' && value.trim() !== ''] *)
Definition isTextValue (value : JS.Value) : bool :=
  JS.truthy value
  && JS.isString value
  && negb (String.eqb (JS.trim (JS.ToString value)) "").

(** The body of the inner [forEach] of the record scan. *)
Definition scanValue (categories : gmap string Category.t)
    (entry : string * JS.Value) : gmap string Category.t :=
  let '(fieldName, value) := entry in
  match findField fieldName with
  | Some field =>
      match categories !! Field.field_type field with
      | Some _ =>
          if isNumericValue value
          then alter Category.setHasNumeric (Field.field_type field) categories
          else if isTextValue value
          then alter Category.setHasText (Field.field_type field) categories
          else categories
      | None => categories
      end
  | None => categories
  end.

Definition scanRecord (categories : gmap string Category.t) (record : Rec.t)
  : gmap string Category.t :=
  fold_left scanValue (Rec.values record) categories.

Definition getFieldCategories : gmap string Category.t :=
  let categories := fold_left scanField fields initialCategories in
  fold_left scanRecord records categories.

Definition fieldCategories : gmap string Category.t := getFieldCategories.

Definition numericOperators : list Op.t :=
  [ Op.mk "gt" "Greater Than"; Op.mk "lt" "Less Than";
    Op.mk "gte" "Greater or Equal"; Op.mk "lte" "Less or Equal" ].

Definition stringOperators : list Op.t :=
  [ Op.mk "ilike" "Contains"; Op.mk "like" "Starts With" ].

Definition equalsOperator : Op.t := Op.mk "eq" "Equals".

Definition getOperatorsForFieldType (fieldType : string) : list Op.t :=
  match fieldCategories !! fieldType with
  | None => []
  | Some category =>
      if Category.hasNumeric category && Category.hasText category
      then equalsOperator :: numericOperators ++ stringOperators
      else if Category.hasNumeric category
      then equalsOperator :: numericOperators
      else equalsOperator :: stringOperators
  end.

Definition getDataTypeDescription (fieldType : string) : string :=
  match fieldCategories !! fieldType with
  | None => ""
  | Some category =>
      if Category.hasNumeric category && Category.hasText category
      then "Filter by Text & Numbers"
      else if Category.hasNumeric category
      then "Filter by Numbers"
      else "Filter by Text"
  end.

(** [!isNaN(parseFloat(stringValue)) && isFinite(stringValue)] *)
Definition isNumericString (stringValue : string) : bool :=
  negb (JS.isNaN (JS.parseFloat stringValue))
  && JS.isFinite (JS.VStr stringValue).

(** The first [switch] of the filter callback: [Some b] when a [case]
    returns [b], [None] when control leaves the [switch]. *)
Definition numericSwitch (operator : string) (numValue numFilter : JS.Number)
  : option bool :=
  match operatorOf operator with
  | Some OpEq => Some (JS.strictEq numValue numFilter)
  | Some OpGt => Some (JS.gt numValue numFilter)
  | Some OpLt => Some (JS.lt numValue numFilter)
  | Some OpGte => Some (JS.ge numValue numFilter)
  | Some OpLte => Some (JS.le numValue numFilter)
  | _ => None
  end.

(** The [switch] nested in the string comparison. *)
Definition numericFallbackSwitch (operator : string)
    (numValue numFilter : JS.Number) : option bool :=
  match operatorOf operator with
  | Some OpGt => Some (JS.gt numValue numFilter)
  | Some OpLt => Some (JS.lt numValue numFilter)
  | Some OpGte => Some (JS.ge numValue numFilter)
  | Some OpLte => Some (JS.le numValue numFilter)
  | _ => None
  end.

(** [fieldValue?.toString() || ''] *)
Definition stringValueOf (fieldValue : JS.Value) : string :=
  match fieldValue with
  | JS.VNull => ""
  | _ => JS.ToString fieldValue
  end.

(** The callback of [matchingFields.some]: does a stored value meet the
    filter? *)
Definition valueMatches (filter : Filter.t) (fieldValue : JS.Value) : bool :=
  let stringValue := stringValueOf fieldValue in
  let filterValue := JS.toLowerCase (Filter.value filter) in
  let currentValue := JS.toLowerCase stringValue in
  let category := fieldCategories !! Filter.fieldType filter in
  let hasNumeric := from_option Category.hasNumeric false category in
  let hasText := from_option Category.hasText false category in
  let numeric :=
    if hasNumeric && isNumericString stringValue
    then numericSwitch (Filter.operator filter)
           (JS.parseFloat stringValue) (JS.parseFloat (Filter.value filter))
    else None in
  match numeric with
  | Some result => result
  | None =>
      if hasText then
        match operatorOf (Filter.operator filter) with
        | Some OpEq => String.eqb currentValue filterValue
        | Some OpIlike => JS.includes currentValue filterValue
        | Some OpLike => JS.startsWith currentValue filterValue
        | Some (OpGt | OpLt | OpGte | OpLte) =>
            let inner :=
              if isNumericString stringValue
              then numericFallbackSwitch (Filter.operator filter)
                     (JS.parseFloat stringValue)
                     (JS.parseFloat (Filter.value filter))
              else None in
            match inner with
            | Some result => result
            | None => false
            end
        | None => false
        end
      else false
  end.

(** The entries of a record whose field has the type of the filter. *)
Definition matchingFields (record : Rec.t) (filter : Filter.t)
  : list (string * JS.Value) :=
  List.filter
    (fun entry =>
       match findField (fst entry) with
       | Some field => String.eqb (Field.field_type field) (Filter.fieldType filter)
       | None => false
       end)
    (Rec.values record).

(** The callback of [filtersToApply.every]. *)
Definition filterHolds (record : Rec.t) (filter : Filter.t) : bool :=
  existsb (fun entry => valueMatches filter (snd entry))
          (matchingFields record filter).

(** [applyFilters]; [allRecords] is what [getRecordsByFormId(formId)]
    answers. *)
Definition applyFilters (filtersToApply : list Filter.t)
    (allRecords : list Rec.t) : list Rec.t :=
  if Nat.eqb (length filtersToApply) 0 then allRecords
  else
    List.filter
      (fun record => forallb (filterHolds record) filtersToApply)
      allRecords.

End RecordsScreen.

(** The predicate evaluator of the specification: [applyFilters] on a record
    collection with the categories derived from that same collection. *)
Definition evaluate (records : list Rec.t) (fields : list Field.t)
    (filterSet : list Filter.t) : list Rec.t :=
  applyFilters fields records filterSet records.

(** ** The query builders of the API service *)

(** The request that a call of [apiRequest(endpoint)] sends. *)
Inductive Request : Type :=
| apiRequest (endpoint : string).

Definition endpointOf (r : Request) : string :=
  match r with apiRequest endpoint => endpoint end.

Definition getRecordsByFormId (formId : JS.Value) : Request :=
  apiRequest ("/record?form_id=eq." +:+ JS.ToString formId).

Definition quoteMark : string := String (ascii_of_N 34) EmptyString.

(** [filter.isNumeric ? '-' : '-%3E'] *)
Definition jsonOperatorOf (isNumeric : bool) : string :=
  if isNumeric then "-" else "-%3E".

(** The [switch] of one clause: its query parameter, or [None] when the
    operator selects [default] and the callback returns. *)
Definition queryParamOf (jsonOperator field operator value : string)
  : option string :=
  let encodedField := JS.encodeURIComponent (quoteMark +:+ field +:+ quoteMark) in
  let lhs := "values" +:+ jsonOperator +:+ encodedField in
  match operatorOf operator with
  | Some OpEq => Some (lhs +:+ "=eq." +:+ JS.encodeURIComponent value)
  | Some OpIlike => Some (lhs +:+ "=ilike.*" +:+ JS.encodeURIComponent value +:+ "*")
  | Some OpLike => Some (lhs +:+ "=like." +:+ JS.encodeURIComponent value +:+ "%")
  | Some OpGt => Some (lhs +:+ "=gt." +:+ JS.encodeURIComponent value)
  | Some OpLt => Some (lhs +:+ "=lt." +:+ JS.encodeURIComponent value)
  | Some OpGte => Some (lhs +:+ "=gte." +:+ JS.encodeURIComponent value)
  | Some OpLte => Some (lhs +:+ "=lte." +:+ JS.encodeURIComponent value)
  | None => None
  end.

Definition queryParam (filter : Filter.t) : option string :=
  queryParamOf (jsonOperatorOf (Filter.isNumeric filter))
    (Filter.field filter) (Filter.operator filter) (Filter.value filter).

(** The callback of [filters.forEach]: what [query] is after one clause. *)
Definition appendClause (query : string) (filter : Filter.t) (index : nat)
  : string :=
  match queryParam filter with
  | None => query
  | Some param =>
      (if Nat.ltb 0 index then query +:+ "&" else query) +:+ param
  end.

Fixpoint forEachFilter (filters : list Filter.t) (index : nat) (query : string)
  : string :=
  match filters with
  | [] => query
  | filter :: rest => forEachFilter rest (S index) (appendClause query filter index)
  end.

Definition filterRecordsByCriteria (formId : JS.Value) (filters : list Filter.t)
  : Request :=
  if Nat.eqb (length filters) 0 then getRecordsByFormId formId
  else
    let query := "/record?form_id=eq." +:+ JS.ToString formId in
    apiRequest (forEachFilter filters 0 query).

Definition filterRecordsSimple (formId : JS.Value) (field operator value : string)
  : Request :=
  let isNumeric := false in
  let query := "/record?form_id=eq." +:+ JS.ToString formId in
  match queryParamOf (jsonOperatorOf isNumeric) field operator value with
  | Some param => apiRequest (query +:+ "&" +:+ param)
  | None => apiRequest query
  end.

(** ** Inputs of the scenarios and auxiliary notions of the statements *)

(** Scenario A: one text field declared numeric, and three records whose
    [Age] is "10", "20" and "abc". *)
Definition scenarioA_fields : list Field.t :=
  [ Field.mk "Age" "text" true ].

Definition scenarioA_records : list Rec.t :=
  [ Rec.mk 1 [("Age", JS.VStr "10")];
    Rec.mk 2 [("Age", JS.VStr "20")];
    Rec.mk 3 [("Age", JS.VStr "abc")] ].

(** Scenario A without its third record. *)
Definition scenarioA_numeric_records : list Rec.t :=
  [ Rec.mk 1 [("Age", JS.VStr "10")];
    Rec.mk 2 [("Age", JS.VStr "20")] ].

(** A clause on the field [Age] that is marked numeric, and the same clause
    without the mark. *)
Definition numericClause : Filter.t :=
  Filter.mk 0 "text" "Age" "gt" "15" "and" true.

Definition unmarkedClause : Filter.t :=
  Filter.mk 0 "text" "Age" "gt" "15" "and" false.

(** A "contains" clause on the text category. *)
Definition containsClause : Filter.t :=
  Filter.mk 0 "text" "Age" "ilike" "1" "and" false.

(** A "greater than" clause whose value only starts with a number. *)
Definition prefixClause : Filter.t :=
  Filter.mk 0 "text" "Age" "gt" "15abc" "and" false.

(** The numeric and the text evidence of a field type in a category table;
    [false] for a type that the table does not have. *)
Definition numericEvidence (categories : gmap string Category.t) (ft : string) : bool :=
  from_option Category.hasNumeric false (categories !! ft).

Definition textEvidence (categories : gmap string Category.t) (ft : string) : bool :=
  from_option Category.hasText false (categories !! ft).

(** The three field types that have a category. *)
Definition isCategoryType (ft : string) : bool :=
  String.eqb ft "text" || String.eqb ft "multiline" || String.eqb ft "dropdown".

(** An assignment of combinators to the clauses of a filter set, clause by
    clause; clauses beyond the assignment keep theirs. *)
Fixpoint withLogic (logics : list string) (filters : list Filter.t) : list Filter.t :=
  match logics, filters with
  | l :: logics', f :: filters' => Filter.setLogic l f :: withLogic logics' filters'
  | _, _ => filters
  end.

(** The clauses of a list, each with the separator in front; clauses whose
    operator is unknown leave nothing. *)
Fixpoint separatedClauses (filters : list Filter.t) : string :=
  match filters with
  | [] => ""
  | f :: rest =>
      match queryParam f with
      | Some param => "&" +:+ param +:+ separatedClauses rest
      | None => separatedClauses rest
      end
  end.

(** The four ordering operators, which compare numbers only. *)
Definition isOrdering (o : Operator) : bool :=
  match o with
  | OpGt | OpLt | OpGte | OpLte => true
  | _ => false
  end.

(** Does the category table have the field type? *)
Definition hasCategory (categories : gmap string Category.t) (ft : string) : bool :=
  match categories !! ft with Some _ => true | None => false end.

(** The evidence that a field definition gives for the field type [ft]. *)
Definition fieldGivesNumeric (ft : string) (field : Field.t) : bool :=
  isCategoryType (Field.field_type field)
  && String.eqb (Field.field_type field) ft
  && Field.is_num field.

Definition fieldGivesText (ft : string) (field : Field.t) : bool :=
  isCategoryType (Field.field_type field)
  && String.eqb (Field.field_type field) ft
  && negb (Field.is_num field).

(** The evidence that an entry of a record gives for the field type [ft]. *)
Definition entryGivesNumeric (fields : list Field.t) (ft : string)
    (entry : string * JS.Value) : bool :=
  match findField fields (fst entry) with
  | Some field =>
      String.eqb (Field.field_type field) ft && isNumericValue (snd entry)
  | None => false
  end.

Definition entryGivesText (fields : list Field.t) (ft : string)
    (entry : string * JS.Value) : bool :=
  match findField fields (fst entry) with
  | Some field =>
      String.eqb (Field.field_type field) ft
      && negb (isNumericValue (snd entry)) && isTextValue (snd entry)
  | None => false
  end.

Definition recordGivesNumeric (fields : list Field.t) (ft : string)
    (record : Rec.t) : bool :=
  existsb (entryGivesNumeric fields ft) (Rec.values record).

Definition recordGivesText (fields : list Field.t) (ft : string)
    (record : Rec.t) : bool :=
  existsb (entryGivesText fields ft) (Rec.values record).

(** A text field that is not declared numeric, and a record for it. *)
Definition notesField : Field.t := Field.mk "Notes" "multiline" false.

Definition notesRecord : Rec.t := Rec.mk 7 [("Notes", JS.VStr "42")].

(** ** Further notions of the statements *)

(** A filter with another operator, and with another value. *)
Definition withOperator (operator : string) (f : Filter.t) : Filter.t :=
  Filter.mk (Filter.id f) (Filter.fieldType f) (Filter.field f) operator
    (Filter.value f) (Filter.logic f) (Filter.isNumeric f).

Definition withValue (value : string) (f : Filter.t) : Filter.t :=
  Filter.mk (Filter.id f) (Filter.fieldType f) (Filter.field f)
    (Filter.operator f) value (Filter.logic f) (Filter.isNumeric f).

(** The label that [getFieldCategories] gives the category of a field type. *)
Definition categoryLabel (ft : string) : string :=
  from_option Category.label "" (initialCategories !! ft).

(** How often a character occurs in a string. *)
Fixpoint occurrences (c : ascii) (s : string) : nat :=
  match s with
  | EmptyString => 0
  | String x s' => (if Ascii.eqb x c then 1 else 0) + occurrences c s'
  end.

(** The clauses whose operator is one of the seven. *)
Definition knownClauses (filters : list Filter.t) : list Filter.t :=
  List.filter
    (fun f => match operatorOf (Filter.operator f) with Some _ => true | None => false end)
    filters.

(** Do all characters of a string satisfy [p]? *)
Fixpoint allChars (p : ascii → bool) (s : string) : bool :=
  match s with
  | EmptyString => true
  | String x s' => p x && allChars p s'
  end.

(** The characters that [encodeURIComponent] can write: the unreserved ones
    and the percent sign. *)
Definition isEncodedChar (c : ascii) : bool :=
  JS.isUnreserved c || Ascii.eqb c "%".

(** Reading one character back from the head of an encoded string: a
    character that is not a percent sign stands for itself, [%XX] below 80
    for the character with that code, and two groups [%XX%YY] for the
    character whose two UTF-8 bytes they are. *)
Definition decodeHead (s : string) : option (ascii * string) :=
  match s with
  | String "%" (String h (String l rest)) =>
      match JS.digitOf 16 h, JS.digitOf 16 l with
      | Some x, Some y =>
          let b := (16 * x + y)%Z in
          if (b <? 128)%Z then Some (ascii_of_N (Z.to_N b), rest)
          else
            match rest with
            | String "%" (String h' (String l' rest')) =>
                match JS.digitOf 16 h', JS.digitOf 16 l' with
                | Some x', Some y' =>
                    Some (ascii_of_N
                            (Z.to_N ((b - 192) * 64 + (16 * x' + y' - 128))),
                          rest')
                | _, _ => None
                end
            | _ => None
            end
      | _, _ => None
      end
  | String c rest => Some (c, rest)
  | EmptyString => None
  end.

(** ** The filter builder of the records screen *)

(** The filter that is being composed ([currentFilter]). *)
Module Draft.
Record t : Type := mk {
  fieldType : string;
  operator : string;
  value : string;
  logic : string
}.
End Draft.

(** The draft that the screen starts with and goes back to. *)
Definition emptyDraft : Draft.t := Draft.mk "" "" "" "and".

(** [{ ...currentFilter, id: Date.now() }]: the filter has no [field] and no
    [isNumeric] property, so a template literal makes "undefined" of the one
    and the other is falsy. *)
Definition filterOfDraft (draft : Draft.t) (now : Z) : Filter.t :=
  Filter.mk now (Draft.fieldType draft) "undefined" (Draft.operator draft)
    (Draft.value draft) (Draft.logic draft) false.

(** The state of the records screen, without its progress indicators. *)
Module Screen.
Record t : Type := mk {
  fields : list Field.t;
  records : list Rec.t;
  filters : list Filter.t;
  currentFilter : Draft.t;
  showFilterBuilder : bool
}.
End Screen.

Definition initialScreen : Screen.t := Screen.mk [] [] [] emptyDraft false.

(** What can happen on the screen: a press of one of its controls, or the
    answer of the backend to a request that a handler made. *)
Inductive Event : Type :=
| FieldsLoaded (formFields : list Field.t)
| Refreshed (allRecords : list Rec.t)
| OpenBuilder
| CloseBuilder
| ChooseFieldType (type : string)
| ChooseOperator (operator : string)
| ChangeValue (value : string)
| ChooseLogicAnd
| ChooseLogicOr
| Cancel
| AddFilter (now : Z)
| RemoveFilter (id : Z)
| ClearFilters (allRecords : list Rec.t)
| ApplyFilters (allRecords : list Rec.t)
| RecordDeleted (allRecords : list Rec.t).

(** [fetchRecords(appliedFilters)] with the answer of the backend. *)
Definition fetchRecords (s : Screen.t) (appliedFilters : list Filter.t)
    (allRecords : list Rec.t) : list Rec.t :=
  if Nat.ltb 0 (length appliedFilters)
  then applyFilters (Screen.fields s) (Screen.records s) appliedFilters allRecords
  else allRecords.

(** A field type has a button in the builder when its category has text or
    numeric data. *)
Definition fieldTypeOffered (s : Screen.t) (type : string) : bool :=
  match fieldCategories (Screen.fields s) (Screen.records s) !! type with
  | Some category => Category.hasText category || Category.hasNumeric category
  | None => false
  end.

(** An operator has a button when a field type is chosen and the operator is
    in the list of that type. *)
Definition operatorOffered (s : Screen.t) (operator : string) : bool :=
  negb (String.eqb (Draft.fieldType (Screen.currentFilter s)) "")
  && existsb (fun o => String.eqb (Op.value o) operator)
       (getOperatorsForFieldType (Screen.fields s) (Screen.records s)
          (Draft.fieldType (Screen.currentFilter s))).

(** [currentFilter.fieldType && currentFilter.operator && currentFilter.value] *)
Definition draftComplete (draft : Draft.t) : bool :=
  negb (String.eqb (Draft.fieldType draft) "")
  && negb (String.eqb (Draft.operator draft) "")
  && negb (String.eqb (Draft.value draft) "").

Definition withRecords (s : Screen.t) (records : list Rec.t) : Screen.t :=
  Screen.mk (Screen.fields s) records (Screen.filters s)
    (Screen.currentFilter s) (Screen.showFilterBuilder s).

Definition withDraft (s : Screen.t) (draft : Draft.t) : Screen.t :=
  Screen.mk (Screen.fields s) (Screen.records s) (Screen.filters s)
    draft (Screen.showFilterBuilder s).

(** The state after an event; [None] when the screen does not offer the
    control of the event in the state. *)
Definition step (s : Screen.t) (e : Event) : option Screen.t :=
  let draft := Screen.currentFilter s in
  match e with
  | FieldsLoaded formFields =>
      Some (Screen.mk formFields (Screen.records s) (Screen.filters s) draft
              (Screen.showFilterBuilder s))
  | Refreshed allRecords =>
      Some (withRecords s (fetchRecords s [] allRecords))
  | OpenBuilder =>
      Some (Screen.mk (Screen.fields s) (Screen.records s) (Screen.filters s)
              draft true)
  | CloseBuilder =>
      Some (Screen.mk (Screen.fields s) (Screen.records s) (Screen.filters s)
              draft false)
  | ChooseFieldType type =>
      if fieldTypeOffered s type
      then Some (withDraft s (Draft.mk type "" "" (Draft.logic draft)))
      else None
  | ChooseOperator operator =>
      if operatorOffered s operator
      then Some (withDraft s (Draft.mk (Draft.fieldType draft) operator
                                (Draft.value draft) (Draft.logic draft)))
      else None
  | ChangeValue value =>
      if negb (String.eqb (Draft.operator draft) "")
      then Some (withDraft s (Draft.mk (Draft.fieldType draft)
                                (Draft.operator draft) value (Draft.logic draft)))
      else None
  | ChooseLogicAnd =>
      if Nat.ltb 0 (length (Screen.filters s))
      then Some (withDraft s (Draft.mk (Draft.fieldType draft)
                                (Draft.operator draft) (Draft.value draft) "and"))
      else None
  | ChooseLogicOr =>
      if Nat.ltb 0 (length (Screen.filters s))
      then Some (withDraft s (Draft.mk (Draft.fieldType draft)
                                (Draft.operator draft) (Draft.value draft) "or"))
      else None
  | Cancel =>
      Some (Screen.mk (Screen.fields s) (Screen.records s) (Screen.filters s)
              emptyDraft false)
  | AddFilter now =>
      if draftComplete draft
      then Some (Screen.mk (Screen.fields s) (Screen.records s)
                   (Screen.filters s ++ [filterOfDraft draft now])
                   emptyDraft false)
      else None
  | RemoveFilter id =>
      if existsb (fun f => Z.eqb (Filter.id f) id) (Screen.filters s)
      then Some (Screen.mk (Screen.fields s) (Screen.records s)
                   (List.filter (fun f => negb (Z.eqb (Filter.id f) id))
                      (Screen.filters s))
                   draft (Screen.showFilterBuilder s))
      else None
  | ClearFilters allRecords =>
      if Nat.ltb 0 (length (Screen.filters s))
      then Some (Screen.mk (Screen.fields s) (fetchRecords s [] allRecords) []
                   draft (Screen.showFilterBuilder s))
      else None
  | ApplyFilters allRecords =>
      if Nat.ltb 0 (length (Screen.filters s))
      then Some (withRecords s
                   (applyFilters (Screen.fields s) (Screen.records s)
                      (Screen.filters s) allRecords))
      else None
  | RecordDeleted allRecords =>
      Some (withRecords s (fetchRecords s (Screen.filters s) allRecords))
  end.

(** The state after a sequence of events. *)
Fixpoint run (s : Screen.t) (events : list Event) : option Screen.t :=
  match events with
  | [] => Some s
  | e :: rest =>
      match step s e with
      | Some s' => run s' rest
      | None => None
      end
  end.


(** The clock readings of the additions in a sequence of events. *)
Definition timestamps (events : list Event) : list Z :=
  omap (fun e => match e with AddFilter now => Some now | _ => None end) events.


(** A filter that the evaluator can handle: its field type is one of the
    three categories, its operator one of the seven, its value not empty. *)
Definition wellFormedFilter (f : Filter.t) : Prop :=
  isCategoryType (Filter.fieldType f) = true
  ∧ operatorOf (Filter.operator f) ≠ None
  ∧ Filter.value f ≠ "".

(** What every state keeps about the draft. *)
Definition draftWellFormed (draft : Draft.t) : Prop :=
  (Draft.fieldType draft = "" ∨ isCategoryType (Draft.fieldType draft) = true)
  ∧ (Draft.operator draft = "" ∨ operatorOf (Draft.operator draft) ≠ None).


(** Is every number of the list greater than the one before it? *)
Fixpoint increasing (l : list Z) : bool :=
  match l with
  | x :: rest =>
      match rest with
      | y :: _ => (x <? y)%Z && increasing rest
      | [] => true
      end
  | [] => true
  end.

(** ** Submitting a record (the record form) *)

(** A field definition as the record form reads it: the properties that the
    records screen reads, and [required]. *)
Module FieldDef.
Record t : Type := mk {
  field : Field.t;
  required : bool
}.
End FieldDef.

(** [!recordData[field.name]?.toString().trim()]: a missing or null input
    ends the optional chain; any other input is blank when its text is empty
    after trimming. *)
Definition isBlankInput (value : option JS.Value) : bool :=
  match value with
  | None | Some JS.VNull => true
  | Some v => String.eqb (JS.trim (JS.ToString v)) ""
  end.

(** The names of the required fields that are not filled in. *)
Definition missingFields (fields : list FieldDef.t)
    (recordData : gmap string JS.Value) : list string :=
  map (fun d => Field.name (FieldDef.field d))
    (List.filter
       (fun d => FieldDef.required d
                 && isBlankInput (recordData !! Field.name (FieldDef.field d)))
       fields).

(** [parseFloat(value) || 0] *)
Definition parseFloatOrZero (v : JS.Value) : JS.Number :=
  let n := JS.parseFloat (JS.ToString v) in
  if JS.truthy (JS.VNum n) then n else JS.Dec 0 0.

(** The value that goes into the record for a field: the input, made a
    number when the field is numeric and the input is truthy.  [None] is
    [undefined]. *)
Definition processedValue (d : FieldDef.t) (value : option JS.Value)
  : option JS.Value :=
  match value with
  | Some v =>
      if Field.is_num (FieldDef.field d) && JS.truthy v
      then Some (JS.VNum (parseFloatOrZero v))
      else Some v
  | None => None
  end.

(** [processedValues[name] = value], on the properties that
    [JSON.stringify] writes: a property whose value is [undefined] is not
    written. *)
Definition assign (name : string) (value : option JS.Value)
    (object : gmap string JS.Value) : gmap string JS.Value :=
  match value with
  | Some v => <[name := v]> object
  | None => delete name object
  end.

(** The [values] object of the record: one property per field, then one
    property [<field> Name] per named location.  [locationNames] lists the
    entries of the object of that name. *)
Definition processedValues (fields : list FieldDef.t)
    (recordData : gmap string JS.Value) (locationNames : list (string * string))
  : gmap string JS.Value :=
  let byField :=
    fold_left
      (fun object d =>
         assign (Field.name (FieldDef.field d))
           (processedValue d (recordData !! Field.name (FieldDef.field d)))
           object)
      fields ∅ in
  fold_left
    (fun object entry =>
       assign (fst entry +:+ " Name") (Some (JS.VStr (snd entry))) object)
    locationNames byField.

(** [handleSubmitRecord]: the [values] of the record that is sent to
    [insertRecord], or [None] when required fields are missing and nothing is
    sent. *)
Definition handleSubmitRecord (fields : list FieldDef.t)
    (recordData : gmap string JS.Value) (locationNames : list (string * string))
  : option (gmap string JS.Value) :=
  if Nat.ltb 0 (length (missingFields fields recordData)) then None
  else Some (processedValues fields recordData locationNames).

(** A scalar after [JSON.stringify] and [JSON.parse]: NaN and the infinities
    become null. *)
Definition jsonRoundTrip (v : JS.Value) : JS.Value :=
  match v with
  | JS.VNum (JS.Dec m e) => v
  | JS.VNum _ => JS.VNull
  | _ => v
  end.

(** A record of the backend that was submitted through the record form. *)
Definition submittedRecord (fields : list FieldDef.t) (record : Rec.t) : Prop :=
  ∃ recordData locationNames values,
    handleSubmitRecord fields recordData locationNames = Some values
    ∧ (∀ entry, In entry locationNames →
         ∀ d, In d fields → Field.name (FieldDef.field d) ≠ fst entry +:+ " Name")
    ∧ ∀ name v, In (name, v) (Rec.values record) →
        ∃ v', values !! name = Some v' ∧ v = jsonRoundTrip v'.

(** A numeric field, a text field, and inputs for them. *)
Definition ageField : FieldDef.t := FieldDef.mk (Field.mk "Age" "text" true) true.

Definition ageInput : gmap string JS.Value := {[ "Age" := JS.VStr "abc" ]}.

(** ** Adding a field and saving a form *)

(** [s.split(sep)] for a separator of one character. *)
Fixpoint split (sep : ascii) (s : string) : list string :=
  match s with
  | EmptyString => [EmptyString]
  | String c s' =>
      if Ascii.eqb c sep then EmptyString :: split sep s'
      else
        match split sep s' with
        | piece :: pieces => String c piece :: pieces
        | [] => [String c EmptyString]
        end
  end.

(** [dropdownOptions.split(',').map(opt => opt.trim()).filter(opt => opt)] *)
Definition optionsArray (dropdownOptions : string) : list string :=
  List.filter (fun opt => negb (String.eqb opt ""))
    (map JS.trim (split "," dropdownOptions)).

(** The field object that is sent to [insertField]; [options] holds the
    [choices] of the [options] property when there is one. *)
Module FieldData.
Record t : Type := mk {
  name : string;
  field_type : string;
  required : bool;
  is_num : bool;
  order_index : Z;
  options : option (list string)
}.
End FieldData.

(** [handleAddField]: the field object that is sent, or [None] when the
    input is turned down with an alert. *)
Definition handleAddField (fieldName fieldType : string) (required isNumeric : bool)
    (dropdownOptions : string) : option FieldData.t :=
  if String.eqb (JS.trim fieldName) "" then None
  else if String.eqb fieldType "dropdown"
          && String.eqb (JS.trim dropdownOptions) "" then None
  else
    let options :=
      if String.eqb fieldType "dropdown"
         && negb (String.eqb (JS.trim dropdownOptions) "")
      then Some (optionsArray dropdownOptions)
      else None in
    let is_num :=
      if String.eqb fieldType "photo/video" || String.eqb fieldType "location"
         || String.eqb fieldType "dropdown"
      then false else isNumeric in
    Some (FieldData.mk (JS.trim fieldName) fieldType required is_num 0 options).

(** [handleSaveForm]: the name and the description that are sent to
    [updateForm], or [None] when the name is missing. *)
Definition handleSaveForm (formName formDescription : string)
  : option (string * string) :=
  if String.eqb (JS.trim formName) "" then None
  else Some (JS.trim formName, JS.trim formDescription).

(** Does a string begin with a character that is not white space, if it
    begins at all? *)
Definition startsClean (s : string) : bool :=
  match s with
  | EmptyString => true
  | String c _ => negb (JS.isWhiteSpace c)
  end.

(** A string without white space at either end. *)
Definition isTrimmed (s : string) : bool :=
  startsClean s && startsClean (String.rev s).

(** The field of the records screen that a field object becomes. *)
Definition fieldOfData (d : FieldData.t) : Field.t :=
  Field.mk (FieldData.name d) (FieldData.field_type d) (FieldData.is_num d).

(** ** Properties *)

(** *** The built-ins on sample inputs *)

Example parseFloat_samples :
  JS.parseFloat "10" = JS.Dec 10 0
  ∧ JS.parseFloat "  -1.5e3xyz" = JS.Dec (-15) 2
  ∧ JS.parseFloat "15abc" = JS.Dec 15 0
  ∧ JS.parseFloat ".5" = JS.Dec 5 (-1)
  ∧ JS.parseFloat "1e" = JS.Dec 1 0
  ∧ JS.parseFloat "Infinity" = JS.Infinity false
  ∧ JS.parseFloat "abc" = JS.NaN
  ∧ JS.parseFloat "" = JS.NaN
  ∧ JS.parseFloat "." = JS.NaN.
Proof. repeat split; reflexivity. Qed.

Example isFinite_samples :
  JS.isFinite (JS.VStr "10") = true
  ∧ JS.isFinite (JS.VStr " 12 ") = true
  ∧ JS.isFinite (JS.VStr "") = true
  ∧ JS.isFinite (JS.VStr "0x1F") = true
  ∧ JS.isFinite (JS.VStr "15abc") = false
  ∧ JS.isFinite (JS.VStr "abc") = false
  ∧ JS.isFinite (JS.VStr "Infinity") = false
  ∧ JS.isFinite (JS.VNum (JS.Dec 15 (-1))) = true
  ∧ JS.isFinite JS.VNull = true.
Proof. repeat split; reflexivity. Qed.

Example ToString_samples :
  JS.ToString (JS.VNum (JS.Dec 10 0)) = "10"
  ∧ JS.ToString (JS.VNum (JS.Dec 15 (-1))) = "1.5"
  ∧ JS.ToString (JS.VNum (JS.Dec (-1500) (-2))) = "-15"
  ∧ JS.ToString (JS.VNum (JS.Dec 1 21)) = "1e+21"
  ∧ JS.ToString (JS.VNum (JS.Dec 1 (-7))) = "1e-7"
  ∧ JS.ToString (JS.VNum (JS.Dec 0 3)) = "0"
  ∧ JS.ToString (JS.VBool true) = "true".
Proof. repeat split; reflexivity. Qed.

Example string_samples :
  JS.toLowerCase "Hello World" = "hello world"
  ∧ JS.trim "  a b  " = "a b"
  ∧ JS.includes "hello world" "lo w" = true
  ∧ JS.includes "abc" "" = true
  ∧ JS.startsWith "abc" "ab" = true
  ∧ JS.startsWith "abc" "bc" = false
  ∧ JS.encodeURIComponent "A B" = "A%20B"
  ∧ JS.encodeURIComponent (quoteMark +:+ "Age" +:+ quoteMark) = "%22Age%22"
  ∧ JS.encodeURIComponent "a-_.!~*'()/?&=+%" = "a-_.!~*'()%2F%3F%26%3D%2B%25".
Proof. repeat split; reflexivity. Qed.

Example comparison_samples :
  JS.gt (JS.Dec 20 0) (JS.Dec 15 0) = true
  ∧ JS.strictEq (JS.Dec 10 (-1)) (JS.Dec 1 0) = true
  ∧ JS.lt (JS.Dec 5 0) (JS.Infinity false) = true
  ∧ JS.strictEq JS.NaN JS.NaN = false
  ∧ JS.le JS.NaN (JS.Dec 1 0) = false.
Proof. repeat split; reflexivity. Qed.

(** Scenario A and Scenario D of the specification on the code: "greater than
    15" keeps the record "20", and the query of an "equals" clause has the
    quoted field name and the value percent-encoded. *)
Example scenarioA_filter :
  evaluate scenarioA_records scenarioA_fields [unmarkedClause]
  = [Rec.mk 2 [("Age", JS.VStr "20")]].
Proof. vm_compute. reflexivity. Qed.

Example scenarioD_query :
  filterRecordsByCriteria (JS.VNum (JS.Dec 5 0))
    [Filter.mk 0 "text" "Full Name" "eq" "A B" "and" false]
  = apiRequest "/record?form_id=eq.5values-%3E%22Full%20Name%22=eq.A%20B".
Proof. vm_compute. reflexivity. Qed.

(** *** Category inference on Scenario A *)

(** C1, as the specification states it, does not hold: on the input of
    Scenario A the text category does not have "numeric evidence and no text
    evidence". *)
Lemma scenarioA_numeric_only_counterexample :
  ¬ (numericEvidence (getFieldCategories scenarioA_fields scenarioA_records) "text" = true
     ∧ textEvidence (getFieldCategories scenarioA_fields scenarioA_records) "text" = false).
Proof. vm_compute. intros [_ H]. discriminate H. Qed.

(** C1 (amended): on the input of Scenario A the profile of the text category
    has numeric evidence and text evidence.  The value "abc" is what brings
    the text evidence: the record scan takes it as a text value although its
    field is declared numeric, and without the third record the profile has
    numeric evidence only. *)
Theorem scenarioA_profile :
  getFieldCategories scenarioA_fields scenarioA_records !! "text"
    = Some (Category.mk "Text Fields" true true)
  ∧ isTextValue (JS.VStr "abc") = true
  ∧ getFieldCategories scenarioA_fields scenarioA_numeric_records !! "text"
    = Some (Category.mk "Text Fields" false true).
Proof. repeat split; vm_compute; reflexivity. Qed.

(** *** The JSON-path operator of the query builder *)

(** C2, as the specification states it, does not hold: the clause marked
    numeric is not encoded with the operator [-%3E] that the unmarked clause
    gets. *)
Lemma always_text_operator_counterexample :
  filterRecordsByCriteria (JS.VNum (JS.Dec 5 0)) [numericClause]
    = apiRequest "/record?form_id=eq.5values-%22Age%22=gt.15"
  ∧ filterRecordsByCriteria (JS.VNum (JS.Dec 5 0)) [unmarkedClause]
    = apiRequest "/record?form_id=eq.5values-%3E%22Age%22=gt.15"
  ∧ filterRecordsByCriteria (JS.VNum (JS.Dec 5 0)) [numericClause]
    ≠ filterRecordsByCriteria (JS.VNum (JS.Dec 5 0)) [unmarkedClause].
Proof. vm_compute. repeat split; try reflexivity. discriminate. Qed.

Lemma append_cons (x : ascii) (a b : string) :
  String x a +:+ b = String x (a +:+ b).
Proof. reflexivity. Qed.

Lemma append_assoc (a b c : string) : (a +:+ b) +:+ c = a +:+ b +:+ c.
Proof.
  induction a as [|x a IH]; [reflexivity|].
  rewrite !append_cons, IH. reflexivity.
Qed.

Lemma append_empty_r (a : string) : a +:+ "" = a.
Proof.
  induction a as [|x a IH]; [reflexivity|].
  rewrite append_cons, IH. reflexivity.
Qed.

Lemma encodeURIComponent_quoted (s : string) :
  JS.encodeURIComponent (quoteMark +:+ s) = "%22" +:+ JS.encodeURIComponent s.
Proof. reflexivity. Qed.

(** The query parameter of a clause starts with [values], the JSON-path
    operator of the clause and the encoded quotation mark. *)
Lemma queryParamOf_shape (jsonOperator field operator value param : string) :
  queryParamOf jsonOperator field operator value = Some param →
  ∃ rest, param = "values" +:+ jsonOperator +:+ "%22" +:+ rest.
Proof.
  unfold queryParamOf. rewrite encodeURIComponent_quoted.
  destruct (operatorOf operator) as [[]|]; intros H; inversion_clear H;
    rewrite !append_assoc; eexists; reflexivity.
Qed.


(** C2 (amended): the JSON-path operator of a clause follows its numeric
    mark.  A clause that is not marked numeric is encoded with the operator
    that [filterRecordsSimple] always uses, so that the two builders write the
    same comparison for it; a clause that is marked numeric is encoded with
    the other operator, and its comparison differs from the one that the
    operator of unmarked clauses would give. *)
Theorem json_operator_follows_isNumeric
    (formId : JS.Value) (filter : Filter.t) (param : string) :
  queryParam filter = Some param →
  (Filter.isNumeric filter = false →
   filterRecordsSimple formId (Filter.field filter) (Filter.operator filter)
     (Filter.value filter)
   = apiRequest (("/record?form_id=eq." +:+ JS.ToString formId) +:+ "&" +:+ param))
  ∧ (Filter.isNumeric filter = true →
     queryParamOf (jsonOperatorOf false) (Filter.field filter)
       (Filter.operator filter) (Filter.value filter) ≠ Some param).
Proof.
  unfold queryParam. intros H. split; intros Hnum; rewrite Hnum in H.
  - unfold filterRecordsSimple. rewrite H. reflexivity.
  - intros H'.
    apply queryParamOf_shape in H as [rest E].
    apply queryParamOf_shape in H' as [rest' E'].
    rewrite E in E'. cbv in E'. discriminate E'.
Qed.

Lemma json_operator_follows_isNumeric_witness :
  filterRecordsSimple (JS.VNum (JS.Dec 5 0)) "Age" "gt" "15"
  = apiRequest (("/record?form_id=eq." +:+ "5") +:+ "&" +:+ "values-%3E%22Age%22=gt.15")
  ∧ queryParamOf (jsonOperatorOf false) "Age" "gt" "15"
    ≠ Some "values-%22Age%22=gt.15".
Proof.
  split.
  - apply (json_operator_follows_isNumeric (JS.VNum (JS.Dec 5 0)) unmarkedClause
             "values-%3E%22Age%22=gt.15"); vm_compute; reflexivity.
  - apply (json_operator_follows_isNumeric (JS.VNum (JS.Dec 5 0)) numericClause
             "values-%22Age%22=gt.15"); vm_compute; reflexivity.
Defined.

(** *** The operator resolver *)

(** C4, as the specification states it, does not hold for the profile with
    neither kind of evidence: with no field and no record the text category
    has no text evidence, and yet its operator list holds the text operators. *)
Lemma operators_iff_evidence_counterexample :
  textEvidence (getFieldCategories [] []) "text" = false
  ∧ getOperatorsForFieldType [] [] "text" = equalsOperator :: stringOperators
  ∧ ¬ ((∀ o, In o stringOperators → In o (getOperatorsForFieldType [] [] "text"))
        ↔ textEvidence (getFieldCategories [] []) "text" = true).
Proof.
  split; [vm_compute; reflexivity|].
  split; [vm_compute; reflexivity|].
  intros [H _].
  assert (textEvidence (getFieldCategories [] []) "text" = true) as E.
  { apply H. intros o Ho. vm_compute in Ho |- *. tauto. }
  vm_compute in E. discriminate E.
Qed.

Lemma numeric_not_among_string :
  ¬ (∀ o, In o numericOperators → In o (equalsOperator :: stringOperators)).
Proof.
  intros H. specialize (H (Op.mk "gt" "Greater Than")).
  simpl in H. destruct H as [H|[H|[H|[]]]]; try discriminate H. tauto.
Qed.

Lemma string_not_among_numeric :
  ¬ (∀ o, In o stringOperators → In o (equalsOperator :: numericOperators)).
Proof.
  intros H. specialize (H (Op.mk "ilike" "Contains")).
  simpl in H. destruct H as [H|[H|[H|[H|[H|[]]]]]]; try discriminate H. tauto.
Qed.

(** C4 (amended): for every category of the table, the operator list holds
    Equals; it holds the numeric operators if and only if the category has
    numeric evidence; and it holds the text operators if and only if the
    category has text evidence or has no numeric evidence (the list of a
    category with no evidence at all is the text one). *)
Theorem operators_follow_evidence
    (fields : list Field.t) (records : list Rec.t)
    (fieldType : string) (category : Category.t) :
  getFieldCategories fields records !! fieldType = Some category →
  In equalsOperator (getOperatorsForFieldType fields records fieldType)
  ∧ ((∀ o, In o numericOperators →
           In o (getOperatorsForFieldType fields records fieldType))
     ↔ Category.hasNumeric category = true)
  ∧ ((∀ o, In o stringOperators →
           In o (getOperatorsForFieldType fields records fieldType))
     ↔ (Category.hasText category = true ∨ Category.hasNumeric category = false)).
Proof.
  intros Hc.
  unfold getOperatorsForFieldType, fieldCategories. rewrite Hc.
  destruct (Category.hasNumeric category), (Category.hasText category); simpl andb;
    cbv iota.
  - split; [left; reflexivity|].
    split; (split; [tauto|]); intros _ o Ho; simpl in *; tauto.
  - split; [left; reflexivity|]. split.
    + split; [tauto|]. intros _ o Ho. simpl in *; tauto.
    + split.
      * intros H. destruct (string_not_among_numeric H).
      * intros [H|H]; discriminate H.
  - split; [left; reflexivity|]. split.
    + split; [|intros H; discriminate H].
      intros H. destruct (numeric_not_among_string H).
    + split; [tauto|]. intros _ o Ho. simpl in *; tauto.
  - split; [left; reflexivity|]. split.
    + split; [|intros H; discriminate H].
      intros H. destruct (numeric_not_among_string H).
    + split; [tauto|]. intros _ o Ho. simpl in *; tauto.
Qed.

Lemma operators_follow_evidence_witness :
  In equalsOperator
     (getOperatorsForFieldType scenarioA_fields scenarioA_numeric_records "text")
  ∧ ((∀ o, In o numericOperators →
           In o (getOperatorsForFieldType scenarioA_fields scenarioA_numeric_records "text"))
     ↔ true = true)
  ∧ ((∀ o, In o stringOperators →
           In o (getOperatorsForFieldType scenarioA_fields scenarioA_numeric_records "text"))
     ↔ (false = true ∨ true = false)).
Proof.
  apply (operators_follow_evidence scenarioA_fields scenarioA_numeric_records
           "text" (Category.mk "Text Fields" false true)).
  vm_compute. reflexivity.
Defined.

(** *** The empty filter set *)

(** C7: with no filter, [applyFilters] gives back the record collection it
    fetched, whatever the fields and the categories are, so the evaluator is
    the identity; and [filterRecordsByCriteria] asks for the unfiltered
    [/record?form_id=eq.<formId>], the request of [getRecordsByFormId]. *)
Theorem empty_filter_set_is_identity
    (fields : list Field.t) (records allRecords : list Rec.t) (formId : JS.Value) :
  applyFilters fields records [] allRecords = allRecords
  ∧ evaluate records fields [] = records
  ∧ filterRecordsByCriteria formId []
    = apiRequest ("/record?form_id=eq." +:+ JS.ToString formId)
  ∧ filterRecordsByCriteria formId [] = getRecordsByFormId formId.
Proof. repeat split; reflexivity. Qed.

(** *** The separator of the query builder *)

(** After the first clause every clause that is written has the separator
    in front. *)
Lemma forEachFilter_later (filters : list Filter.t) (index : nat) (query : string) :
  forEachFilter filters (S index) query = query +:+ separatedClauses filters.
Proof.
  revert index query.
  induction filters as [|f rest IH]; intros index query; simpl.
  - symmetry. apply append_empty_r.
  - rewrite IH. unfold appendClause.
    destruct (queryParam f) as [param|]; [|reflexivity].
    simpl. rewrite !append_assoc. reflexivity.
Qed.

(** C9: in the query of a non-empty filter list the comparison of the first
    clause follows the base path [/record?form_id=eq.<formId>] directly, and
    the separator [&] stands only before the clauses after the first (a first
    clause with an unknown operator writes nothing); whereas
    [filterRecordsSimple] puts [&] between the base path and its clause. *)
Theorem first_clause_has_no_separator
    (formId : JS.Value) (filter : Filter.t) (rest : list Filter.t)
    (field operator value : string) :
  (∀ param, queryParam filter = Some param →
     filterRecordsByCriteria formId (filter :: rest)
     = apiRequest (("/record?form_id=eq." +:+ JS.ToString formId)
                   +:+ param +:+ separatedClauses rest))
  ∧ (queryParam filter = None →
     filterRecordsByCriteria formId (filter :: rest)
     = apiRequest (("/record?form_id=eq." +:+ JS.ToString formId)
                   +:+ separatedClauses rest))
  ∧ (∀ param, queryParamOf "-%3E" field operator value = Some param →
     filterRecordsSimple formId field operator value
     = apiRequest (("/record?form_id=eq." +:+ JS.ToString formId)
                   +:+ "&" +:+ param)).
Proof.
  split; [|split].
  - intros param Hp. unfold filterRecordsByCriteria. simpl.
    rewrite forEachFilter_later. unfold appendClause. rewrite Hp. simpl.
    rewrite append_assoc. reflexivity.
  - intros Hp. unfold filterRecordsByCriteria. simpl.
    rewrite forEachFilter_later. unfold appendClause. rewrite Hp. reflexivity.
  - intros param Hp. unfold filterRecordsSimple. simpl. rewrite Hp. reflexivity.
Qed.

Lemma first_clause_has_no_separator_witness :
  filterRecordsByCriteria (JS.VNum (JS.Dec 5 0)) [unmarkedClause; numericClause]
  = apiRequest
      "/record?form_id=eq.5values-%3E%22Age%22=gt.15&values-%22Age%22=gt.15"
  ∧ filterRecordsSimple (JS.VNum (JS.Dec 5 0)) "Age" "gt" "15"
    = apiRequest "/record?form_id=eq.5&values-%3E%22Age%22=gt.15".
Proof.
  destruct (first_clause_has_no_separator (JS.VNum (JS.Dec 5 0))
              unmarkedClause [numericClause] "Age" "gt" "15") as (H1 & _ & H3).
  split.
  - apply (H1 "values-%3E%22Age%22=gt.15"). vm_compute. reflexivity.
  - apply (H3 "values-%3E%22Age%22=gt.15"). vm_compute. reflexivity.
Defined.

(** *** The combinator of a clause *)

Lemma filter_all (A : Type) (l : list A) : List.filter (fun _ => true) l = l.
Proof. induction l as [|x l IH]; simpl; [reflexivity|]. f_equal. exact IH. Qed.

Lemma filterHolds_setLogic (fields : list Field.t) (records : list Rec.t)
    (record : Rec.t) (l : string) (filter : Filter.t) :
  filterHolds fields records record (Filter.setLogic l filter)
  = filterHolds fields records record filter.
Proof. destruct filter; reflexivity. Qed.

Lemma queryParam_setLogic (l : string) (filter : Filter.t) :
  queryParam (Filter.setLogic l filter) = queryParam filter.
Proof. destruct filter; reflexivity. Qed.

Lemma length_withLogic (logics : list string) (filters : list Filter.t) :
  length (withLogic logics filters) = length filters.
Proof.
  revert filters. induction logics as [|l logics IH]; intros [|f filters]; simpl;
    try reflexivity.
  f_equal. apply IH.
Qed.

Lemma forallb_withLogic (fields : list Field.t) (records : list Rec.t)
    (record : Rec.t) (logics : list string) (filters : list Filter.t) :
  forallb (filterHolds fields records record) (withLogic logics filters)
  = forallb (filterHolds fields records record) filters.
Proof.
  revert filters. induction logics as [|l logics IH]; intros [|f filters]; simpl;
    try reflexivity.
  rewrite filterHolds_setLogic, IH. reflexivity.
Qed.

Lemma forEachFilter_withLogic (logics : list string) (filters : list Filter.t)
    (index : nat) (query : string) :
  forEachFilter (withLogic logics filters) index query
  = forEachFilter filters index query.
Proof.
  revert filters index query.
  induction logics as [|l logics IH]; intros [|f filters] index query; simpl;
    try reflexivity.
  rewrite IH. unfold appendClause. rewrite queryParam_setLogic. reflexivity.
Qed.

Lemma filter_ext_bool (A : Type) (p q : A → bool) (l : list A) :
  (∀ x, p x = q x) → List.filter p l = List.filter q l.
Proof.
  intros E. induction l as [|x l IH]; simpl; [reflexivity|].
  rewrite E, IH. reflexivity.
Qed.

Lemma join_known (param : string) (filters : list Filter.t) :
  (∀ f, In f filters → queryParam f ≠ None) →
  param +:+ separatedClauses filters
  = String.concat "&" (param :: omap queryParam filters).
Proof.
  revert param. induction filters as [|f rest IH]; intros param Hknown.
  - simpl. apply append_empty_r.
  - simpl separatedClauses. simpl omap.
    destruct (queryParam f) as [q|] eqn:E;
      [|destruct (Hknown f (or_introl eq_refl) E)].
    rewrite (IH q) by (intros g Hg; apply Hknown; right; exact Hg).
    reflexivity.
Qed.

(** C6: [applyFilters] keeps exactly the records for which every clause
    holds; giving the clauses any other combinators changes neither its result
    nor the request of [filterRecordsByCriteria]; and the query of a filter
    list whose operators are all known is the base path followed by the
    comparisons of the clauses joined by [&]. *)
Theorem clauses_are_conjoined
    (fields : list Field.t) (records allRecords : list Rec.t)
    (filters : list Filter.t) (logics : list string) (formId : JS.Value) :
  applyFilters fields records filters allRecords
  = List.filter (fun record => forallb (filterHolds fields records record) filters)
                allRecords
  ∧ applyFilters fields records (withLogic logics filters) allRecords
    = applyFilters fields records filters allRecords
  ∧ filterRecordsByCriteria formId (withLogic logics filters)
    = filterRecordsByCriteria formId filters
  ∧ ((∀ f, In f filters → queryParam f ≠ None) →
     filterRecordsByCriteria formId filters
     = apiRequest (("/record?form_id=eq." +:+ JS.ToString formId)
                   +:+ String.concat "&" (omap queryParam filters))).
Proof.
  split; [|split; [|split]].
  - unfold applyFilters. destruct filters as [|f fs]; simpl; [|reflexivity].
    symmetry. apply filter_all.
  - unfold applyFilters. rewrite length_withLogic.
    destruct (Nat.eqb (length filters) 0); [reflexivity|].
    apply filter_ext_bool. intros record. apply forallb_withLogic.
  - unfold filterRecordsByCriteria. rewrite length_withLogic.
    destruct (Nat.eqb (length filters) 0); [reflexivity|].
    rewrite forEachFilter_withLogic. reflexivity.
  - intros Hknown. destruct filters as [|f fs].
    + unfold filterRecordsByCriteria, getRecordsByFormId. simpl.
      rewrite append_empty_r. reflexivity.
    + unfold filterRecordsByCriteria. simpl length. simpl Nat.eqb. cbv iota.
      simpl forEachFilter. rewrite forEachFilter_later.
      unfold appendClause. simpl omap.
      destruct (queryParam f) as [param|] eqn:E;
        [|destruct (Hknown f (or_introl eq_refl) E)].
      simpl Nat.ltb. cbv iota.
      rewrite append_assoc, join_known
        by (intros g Hg; apply Hknown; right; exact Hg).
      reflexivity.
Qed.

Lemma clauses_are_conjoined_witness :
  filterRecordsByCriteria (JS.VNum (JS.Dec 5 0))
    [unmarkedClause; Filter.setLogic "or" unmarkedClause]
  = apiRequest (("/record?form_id=eq." +:+ "5")
                +:+ String.concat "&"
                      ["values-%3E%22Age%22=gt.15"; "values-%3E%22Age%22=gt.15"]).
Proof.
  destruct (clauses_are_conjoined scenarioA_fields scenarioA_records
              scenarioA_records
              [unmarkedClause; Filter.setLogic "or" unmarkedClause]
              ["and"; "or"] (JS.VNum (JS.Dec 5 0)))
    as (_ & _ & _ & H).
  apply H.
  intros f [<-|[<-|[]]]; vm_compute; discriminate.
Defined.

(** *** Numeric comparisons of the predicate evaluator *)

(** C5, as the specification states it, does not hold: the stored value "20"
    meets the clause "greater than 15abc" by a numeric comparison, although
    "15abc" does not pass the test that stored values must pass. *)
Lemma clause_value_parsed_alike_counterexample :
  valueMatches scenarioA_fields scenarioA_records prefixClause (JS.VStr "20") = true
  ∧ numericSwitch (Filter.operator prefixClause)
      (JS.parseFloat "20") (JS.parseFloat (Filter.value prefixClause)) = Some true
  ∧ isNumericString (Filter.value prefixClause) = false
  ∧ evaluate scenarioA_records scenarioA_fields [prefixClause]
    = [Rec.mk 2 [("Age", JS.VStr "20")]].
Proof. vm_compute. repeat split; reflexivity. Qed.

Lemma compare_not_NaN (a b : JS.Number) (c : comparison) :
  JS.compare a b = Some c → JS.isNaN a = false ∧ JS.isNaN b = false.
Proof. destruct a, b; simpl; intros H; try discriminate H; split; reflexivity. Qed.

Lemma numericSwitch_true (operator : string) (a b : JS.Number) :
  numericSwitch operator a b = Some true → JS.isNaN b = false.
Proof.
  unfold numericSwitch, JS.strictEq, JS.gt, JS.lt, JS.ge, JS.le.
  destruct (operatorOf operator) as [[]|]; try discriminate;
    destruct (JS.compare a b) as [c|] eqn:E; try discriminate;
    intros _; apply (compare_not_NaN a b c E).
Qed.

Lemma numericFallbackSwitch_true (operator : string) (a b : JS.Number) :
  numericFallbackSwitch operator a b = Some true → JS.isNaN b = false.
Proof.
  unfold numericFallbackSwitch, JS.gt, JS.lt, JS.ge, JS.le.
  destruct (operatorOf operator) as [[]|]; try discriminate;
    destruct (JS.compare a b) as [c|] eqn:E; try discriminate;
    intros _; apply (compare_not_NaN a b c E).
Qed.

(** C5 (amended): a clause can be met by a numeric comparison, which is any
    match of [gt], [lt], [gte] or [lte] and a match of [eq] on a numeric
    stored value in a category with numeric evidence, only if the stored value
    passes the numeric test ([parseFloat] is not NaN and the whole string is
    finite) and [parseFloat] of the clause's value is not NaN.  The clause's
    value is not put to the whole-string test. *)
Theorem numeric_match_needs_parsed_value
    (fields : list Field.t) (records : list Rec.t)
    (filter : Filter.t) (fieldValue : JS.Value) (o : Operator) :
  operatorOf (Filter.operator filter) = Some o →
  isOrdering o = true
  ∨ (o = OpEq
     ∧ numericEvidence (getFieldCategories fields records) (Filter.fieldType filter) = true
     ∧ isNumericString (stringValueOf fieldValue) = true) →
  valueMatches fields records filter fieldValue = true →
  isNumericString (stringValueOf fieldValue) = true
  ∧ JS.isNaN (JS.parseFloat (Filter.value filter)) = false.
Proof.
  intros Ho Hkind. unfold valueMatches, fieldCategories, numericEvidence in *.
  destruct (from_option Category.hasNumeric false
              (getFieldCategories fields records !! Filter.fieldType filter)) eqn:HN;
    destruct (isNumericString (stringValueOf fieldValue)) eqn:HS; simpl.
  - (* the numeric branch *)
    destruct (numericSwitch (Filter.operator filter)
                (JS.parseFloat (stringValueOf fieldValue))
                (JS.parseFloat (Filter.value filter))) as [result|] eqn:E.
    + intros ->. split; [reflexivity|]. exact (numericSwitch_true _ _ _ E).
    + unfold numericSwitch in E. rewrite Ho in *.
      destruct Hkind as [Hk|(-> & _)]; [|discriminate E].
      destruct o; discriminate.
  - destruct Hkind as [Hk|(_ & _ & H)]; [|discriminate H].
    rewrite Ho. destruct o; try discriminate Hk;
      destruct (from_option Category.hasText false _); discriminate.
  - destruct Hkind as [Hk|(_ & H & _)]; [|discriminate H].
    rewrite Ho.
    destruct (from_option Category.hasText false _); [|discriminate].
    destruct o; try discriminate Hk;
      (destruct (numericFallbackSwitch (Filter.operator filter)
                  (JS.parseFloat (stringValueOf fieldValue))
                  (JS.parseFloat (Filter.value filter))) as [result|] eqn:E;
       [intros ->; split; [reflexivity|]; exact (numericFallbackSwitch_true _ _ _ E)
       |discriminate]).
  - destruct Hkind as [Hk|(_ & H & _)]; [|discriminate H].
    rewrite Ho. destruct o; try discriminate Hk;
      destruct (from_option Category.hasText false _); discriminate.
Qed.

Lemma numeric_match_needs_parsed_value_witness :
  isNumericString (stringValueOf (JS.VStr "20")) = true
  ∧ JS.isNaN (JS.parseFloat (Filter.value prefixClause)) = false.
Proof.
  apply (numeric_match_needs_parsed_value scenarioA_fields scenarioA_records
           prefixClause (JS.VStr "20") OpGt).
  - vm_compute. reflexivity.
  - left. reflexivity.
  - vm_compute. reflexivity.
Defined.

(** *** Filtering twice *)

(** C3, as the specification states it, does not hold: on the records of
    Scenario A the clause "contains 1" keeps the record "10", and evaluated
    again on that result, whose categories no longer have text evidence, it
    keeps nothing. *)
Lemma evaluate_idempotent_counterexample :
  evaluate scenarioA_records scenarioA_fields [containsClause]
    = [Rec.mk 1 [("Age", JS.VStr "10")]]
  ∧ evaluate (evaluate scenarioA_records scenarioA_fields [containsClause])
      scenarioA_fields [containsClause] = []
  ∧ evaluate (evaluate scenarioA_records scenarioA_fields [containsClause])
      scenarioA_fields [containsClause]
    ≠ evaluate scenarioA_records scenarioA_fields [containsClause].
Proof. vm_compute. repeat split; try reflexivity. discriminate. Qed.

Lemma filter_twice (A : Type) (p : A → bool) (l : list A) :
  List.filter p (List.filter p l) = List.filter p l.
Proof.
  induction l as [|x l IH]; simpl; [reflexivity|].
  destruct (p x) eqn:E; simpl; [rewrite E; f_equal|]; exact IH.
Qed.

(** C3 (amended): filtering is idempotent when both passes use the same
    categories: with the fields and the record collection that the categories
    are derived from held fixed, [applyFilters] applied to its own result
    gives that result; in particular the result of [evaluate] is unchanged
    when it is filtered again with the categories of the original records. *)
Theorem applyFilters_idempotent
    (fields : list Field.t) (records allRecords : list Rec.t)
    (filterSet : list Filter.t) :
  applyFilters fields records filterSet
    (applyFilters fields records filterSet allRecords)
  = applyFilters fields records filterSet allRecords
  ∧ applyFilters fields records filterSet (evaluate records fields filterSet)
    = evaluate records fields filterSet.
Proof.
  assert (∀ rs, applyFilters fields records filterSet
                  (applyFilters fields records filterSet rs)
                = applyFilters fields records filterSet rs) as H.
  { intros rs. unfold applyFilters.
    destruct (Nat.eqb (length filterSet) 0); [reflexivity|]. apply filter_twice. }
  split; [apply H|]. unfold evaluate. apply H.
Qed.

(** *** Evidence in the category table *)

Section Evidence.

Variable ft : string.

Lemma hasCategory_alter (f : Category.t → Category.t) (j : string)
    (categories : gmap string Category.t) :
  hasCategory (alter f j categories) ft = hasCategory categories ft.
Proof.
  unfold hasCategory. destruct (decide (j = ft)) as [->|Hne].
  - rewrite lookup_alter_eq. destruct (categories !! ft); reflexivity.
  - rewrite lookup_alter_ne by exact Hne. reflexivity.
Qed.

Lemma numericEvidence_setHasNumeric (j : string)
    (categories : gmap string Category.t) :
  numericEvidence (alter Category.setHasNumeric j categories) ft
  = numericEvidence categories ft
    || (hasCategory categories ft && String.eqb j ft).
Proof.
  unfold numericEvidence, hasCategory.
  destruct (String.eqb_spec j ft) as [->|Hne].
  - rewrite lookup_alter_eq. destruct (categories !! ft) as [c|]; simpl;
      [rewrite orb_true_r|]; reflexivity.
  - rewrite lookup_alter_ne by exact Hne.
    rewrite andb_false_r, orb_false_r. reflexivity.
Qed.

Lemma textEvidence_setHasText (j : string)
    (categories : gmap string Category.t) :
  textEvidence (alter Category.setHasText j categories) ft
  = textEvidence categories ft
    || (hasCategory categories ft && String.eqb j ft).
Proof.
  unfold textEvidence, hasCategory.
  destruct (String.eqb_spec j ft) as [->|Hne].
  - rewrite lookup_alter_eq. destruct (categories !! ft) as [c|]; simpl;
      [rewrite orb_true_r|]; reflexivity.
  - rewrite lookup_alter_ne by exact Hne.
    rewrite andb_false_r, orb_false_r. reflexivity.
Qed.

Lemma numericEvidence_setHasText (j : string)
    (categories : gmap string Category.t) :
  numericEvidence (alter Category.setHasText j categories) ft
  = numericEvidence categories ft.
Proof.
  unfold numericEvidence. destruct (decide (j = ft)) as [->|Hne].
  - rewrite lookup_alter_eq. destruct (categories !! ft); reflexivity.
  - rewrite lookup_alter_ne by exact Hne. reflexivity.
Qed.

Lemma textEvidence_setHasNumeric (j : string)
    (categories : gmap string Category.t) :
  textEvidence (alter Category.setHasNumeric j categories) ft
  = textEvidence categories ft.
Proof.
  unfold textEvidence. destruct (decide (j = ft)) as [->|Hne].
  - rewrite lookup_alter_eq. destruct (categories !! ft); reflexivity.
  - rewrite lookup_alter_ne by exact Hne. reflexivity.
Qed.

(** A scan whose steps keep the keys of the table and add to a flag what
    its elements give, adds what any of its elements gives. *)
Lemma fold_left_evidence (A : Type)
    (step : gmap string Category.t → A → gmap string Category.t)
    (flag : gmap string Category.t → string → bool) (gives : A → bool) :
  (∀ categories a, hasCategory (step categories a) ft = hasCategory categories ft) →
  (∀ categories a,
      flag (step categories a) ft
      = flag categories ft || (hasCategory categories ft && gives a)) →
  ∀ (l : list A) (categories : gmap string Category.t),
    hasCategory (fold_left step l categories) ft = hasCategory categories ft
    ∧ flag (fold_left step l categories) ft
      = flag categories ft || (hasCategory categories ft && existsb gives l).
Proof.
  intros Hkeys Hflag l.
  induction l as [|a l IH]; intros categories; simpl.
  - rewrite andb_false_r, orb_false_r. split; reflexivity.
  - destruct (IH (step categories a)) as [IHk IHf].
    rewrite IHk, IHf, Hkeys, Hflag. split; [reflexivity|].
    destruct (flag categories ft), (hasCategory categories ft), (gives a);
      reflexivity.
Qed.

Lemma hasCategory_scanField (categories : gmap string Category.t)
    (field : Field.t) :
  hasCategory (scanField categories field) ft = hasCategory categories ft.
Proof.
  unfold scanField.
  destruct (_ || _); [|reflexivity].
  destruct (Field.is_num field); apply hasCategory_alter.
Qed.

Lemma numericEvidence_scanField (categories : gmap string Category.t)
    (field : Field.t) :
  numericEvidence (scanField categories field) ft
  = numericEvidence categories ft
    || (hasCategory categories ft && fieldGivesNumeric ft field).
Proof.
  unfold scanField, fieldGivesNumeric, isCategoryType.
  destruct (_ || _); simpl.
  - destruct (Field.is_num field).
    + rewrite numericEvidence_setHasNumeric, andb_true_r. reflexivity.
    + rewrite numericEvidence_setHasText, !andb_false_r, orb_false_r. reflexivity.
  - rewrite andb_false_r, orb_false_r. reflexivity.
Qed.

Lemma textEvidence_scanField (categories : gmap string Category.t)
    (field : Field.t) :
  textEvidence (scanField categories field) ft
  = textEvidence categories ft
    || (hasCategory categories ft && fieldGivesText ft field).
Proof.
  unfold scanField, fieldGivesText, isCategoryType.
  destruct (_ || _); simpl.
  - destruct (Field.is_num field); simpl.
    + rewrite textEvidence_setHasNumeric, !andb_false_r, orb_false_r. reflexivity.
    + rewrite textEvidence_setHasText, andb_true_r. reflexivity.
  - rewrite andb_false_r, orb_false_r. reflexivity.
Qed.

Variable fields : list Field.t.

Lemma hasCategory_scanValue (categories : gmap string Category.t)
    (entry : string * JS.Value) :
  hasCategory (scanValue fields categories entry) ft = hasCategory categories ft.
Proof.
  unfold scanValue. destruct entry as [fieldName value].
  destruct (findField fields fieldName) as [field|]; [|reflexivity].
  destruct (categories !! Field.field_type field); [|reflexivity].
  destruct (isNumericValue value); [apply hasCategory_alter|].
  destruct (isTextValue value); [apply hasCategory_alter|reflexivity].
Qed.

(** When the table lacks the type of the field, that type is not [ft] or
    the table lacks [ft]. *)
Lemma lacking_type (categories : gmap string Category.t) (j : string) :
  categories !! j = None → hasCategory categories ft && String.eqb j ft = false.
Proof.
  intros Hj. destruct (String.eqb_spec j ft) as [->|_].
  - unfold hasCategory. rewrite Hj. reflexivity.
  - apply andb_false_r.
Qed.

Lemma numericEvidence_scanValue (categories : gmap string Category.t)
    (entry : string * JS.Value) :
  numericEvidence (scanValue fields categories entry) ft
  = numericEvidence categories ft
    || (hasCategory categories ft && entryGivesNumeric fields ft entry).
Proof.
  unfold scanValue, entryGivesNumeric. destruct entry as [fieldName value]; simpl.
  destruct (findField fields fieldName) as [field|];
    [|rewrite andb_false_r, orb_false_r; reflexivity].
  destruct (categories !! Field.field_type field) eqn:Hc.
  - destruct (isNumericValue value).
    + rewrite numericEvidence_setHasNumeric, andb_true_r. reflexivity.
    + rewrite !andb_false_r, orb_false_r.
      destruct (isTextValue value); [apply numericEvidence_setHasText|reflexivity].
  - rewrite andb_assoc, (lacking_type _ _ Hc), orb_false_r. reflexivity.
Qed.

Lemma textEvidence_scanValue (categories : gmap string Category.t)
    (entry : string * JS.Value) :
  textEvidence (scanValue fields categories entry) ft
  = textEvidence categories ft
    || (hasCategory categories ft && entryGivesText fields ft entry).
Proof.
  unfold scanValue, entryGivesText. destruct entry as [fieldName value]; simpl.
  destruct (findField fields fieldName) as [field|];
    [|rewrite andb_false_r, orb_false_r; reflexivity].
  destruct (categories !! Field.field_type field) eqn:Hc.
  - destruct (isNumericValue value); simpl.
    + rewrite textEvidence_setHasNumeric, !andb_false_r, orb_false_r. reflexivity.
    + rewrite andb_true_r.
      destruct (isTextValue value).
      * rewrite textEvidence_setHasText, andb_true_r. reflexivity.
      * rewrite !andb_false_r, orb_false_r. reflexivity.
  - rewrite <- andb_assoc, andb_assoc, (lacking_type _ _ Hc), orb_false_r.
    reflexivity.
Qed.

Lemma scanRecord_evidence (categories : gmap string Category.t)
    (record : Rec.t) :
  hasCategory (scanRecord fields categories record) ft = hasCategory categories ft
  ∧ numericEvidence (scanRecord fields categories record) ft
    = numericEvidence categories ft
      || (hasCategory categories ft && recordGivesNumeric fields ft record)
  ∧ textEvidence (scanRecord fields categories record) ft
    = textEvidence categories ft
      || (hasCategory categories ft && recordGivesText fields ft record).
Proof.
  unfold scanRecord, recordGivesNumeric, recordGivesText.
  split; [|split].
  - apply (fold_left_evidence _ _ numericEvidence (entryGivesNumeric fields ft)
             hasCategory_scanValue numericEvidence_scanValue).
  - apply (fold_left_evidence _ _ numericEvidence (entryGivesNumeric fields ft)
             hasCategory_scanValue numericEvidence_scanValue).
  - apply (fold_left_evidence _ _ textEvidence (entryGivesText fields ft)
             hasCategory_scanValue textEvidence_scanValue).
Qed.

Lemma hasCategory_initial : hasCategory initialCategories ft = isCategoryType ft.
Proof.
  unfold hasCategory, initialCategories, isCategoryType.
  destruct (String.eqb_spec ft "text") as [->|H1]; [reflexivity|].
  rewrite lookup_insert_ne by congruence.
  destruct (String.eqb_spec ft "multiline") as [->|H2]; [reflexivity|].
  rewrite lookup_insert_ne by congruence.
  destruct (String.eqb_spec ft "dropdown") as [->|H3]; [reflexivity|].
  rewrite lookup_insert_ne by congruence.
  reflexivity.
Qed.

Lemma evidence_initial :
  numericEvidence initialCategories ft = false
  ∧ textEvidence initialCategories ft = false.
Proof.
  unfold numericEvidence, textEvidence, initialCategories.
  destruct (decide (ft = "text")) as [->|H1]; [split; reflexivity|].
  rewrite lookup_insert_ne by congruence.
  destruct (decide (ft = "multiline")) as [->|H2]; [split; reflexivity|].
  rewrite lookup_insert_ne by congruence.
  destruct (decide (ft = "dropdown")) as [->|H3]; [split; reflexivity|].
  rewrite lookup_insert_ne by congruence.
  split; reflexivity.
Qed.

(** What [getFieldCategories] finds for a field type: the type is one of
    the three, and a field definition or an entry of a record gives the
    evidence. *)
Lemma getFieldCategories_evidence (records : list Rec.t) :
  numericEvidence (getFieldCategories fields records) ft
  = isCategoryType ft
    && (existsb (fieldGivesNumeric ft) fields
        || existsb (recordGivesNumeric fields ft) records)
  ∧ textEvidence (getFieldCategories fields records) ft
    = isCategoryType ft
      && (existsb (fieldGivesText ft) fields
          || existsb (recordGivesText fields ft) records).
Proof.
  unfold getFieldCategories.
  destruct (fold_left_evidence _ scanField numericEvidence (fieldGivesNumeric ft)
              hasCategory_scanField numericEvidence_scanField
              fields initialCategories) as [Hk HN].
  destruct (fold_left_evidence _ scanField textEvidence (fieldGivesText ft)
              hasCategory_scanField textEvidence_scanField
              fields initialCategories) as [_ HT].
  destruct (fold_left_evidence _ (scanRecord fields) numericEvidence
              (recordGivesNumeric fields ft)
              (fun c r => proj1 (scanRecord_evidence c r))
              (fun c r => proj1 (proj2 (scanRecord_evidence c r)))
              records (fold_left scanField fields initialCategories)) as [_ HN'].
  destruct (fold_left_evidence _ (scanRecord fields) textEvidence
              (recordGivesText fields ft)
              (fun c r => proj1 (scanRecord_evidence c r))
              (fun c r => proj2 (proj2 (scanRecord_evidence c r)))
              records (fold_left scanField fields initialCategories)) as [_ HT'].
  rewrite HN', HT', Hk, HN, HT, hasCategory_initial.
  destruct evidence_initial as [-> ->].
  split; destruct (isCategoryType ft); simpl;
    rewrite ?orb_false_r; reflexivity.
Qed.

End Evidence.

Lemma existsb_incl (A : Type) (p : A → bool) (l l' : list A) :
  incl l l' → existsb p l = true → existsb p l' = true.
Proof.
  intros Hincl H. apply existsb_exists in H as (x & Hx & Hp).
  apply existsb_exists. exists x. split; [apply Hincl, Hx|exact Hp].
Qed.

(** C8: category inference is monotonic in the record collection: when every
    record of [records] is among [records'], the numeric evidence and the
    text evidence that a field type has with [records] it also has with
    [records']. *)
Theorem inference_monotonic
    (fields : list Field.t) (records records' : list Rec.t) (ft : string) :
  incl records records' →
  (numericEvidence (getFieldCategories fields records) ft = true →
   numericEvidence (getFieldCategories fields records') ft = true)
  ∧ (textEvidence (getFieldCategories fields records) ft = true →
     textEvidence (getFieldCategories fields records') ft = true).
Proof.
  intros Hincl.
  destruct (getFieldCategories_evidence ft fields records) as [-> ->].
  destruct (getFieldCategories_evidence ft fields records') as [-> ->].
  split; intros H; apply andb_true_iff in H as [-> H]; simpl;
    apply orb_true_iff in H as [->|H]; try reflexivity;
    rewrite (existsb_incl _ _ _ _ Hincl H); apply orb_true_r.
Qed.

Lemma inference_monotonic_witness :
  incl [notesRecord] (notesRecord :: scenarioA_records)
  ∧ numericEvidence (getFieldCategories [notesField] [notesRecord]) "multiline" = true
  ∧ numericEvidence (getFieldCategories [notesField] (notesRecord :: scenarioA_records))
      "multiline" = true
  ∧ textEvidence (getFieldCategories [notesField] (notesRecord :: scenarioA_records))
      "multiline" = true.
Proof.
  assert (incl [notesRecord] (notesRecord :: scenarioA_records)) as Hincl.
  { intros r [<-|[]]. simpl. left. reflexivity. }
  destruct (inference_monotonic [notesField] [notesRecord]
              (notesRecord :: scenarioA_records) "multiline" Hincl) as [HN HT].
  split; [exact Hincl|].
  split; [vm_compute; reflexivity|].
  split; [apply HN|apply HT]; vm_compute; reflexivity.
Defined.

(** C10: for every field list and record collection, a field of one of the
    three category types gives its category numeric evidence when it is
    declared numeric and text evidence when it is not, so the category of a
    field has at least one kind of evidence; a category with no evidence has
    no field of its type. *)
Theorem field_gives_evidence
    (fields : list Field.t) (records : list Rec.t) (field : Field.t) (ft : string) :
  (In field fields → isCategoryType (Field.field_type field) = true →
   (if Field.is_num field
    then numericEvidence (getFieldCategories fields records) (Field.field_type field)
    else textEvidence (getFieldCategories fields records) (Field.field_type field))
   = true
   ∧ (numericEvidence (getFieldCategories fields records) (Field.field_type field)
      || textEvidence (getFieldCategories fields records) (Field.field_type field))
     = true)
  ∧ (isCategoryType ft = true →
     numericEvidence (getFieldCategories fields records) ft = false →
     textEvidence (getFieldCategories fields records) ft = false →
     ∀ f, In f fields → Field.field_type f ≠ ft).
Proof.
  assert (∀ f, In f fields → isCategoryType (Field.field_type f) = true →
            (if Field.is_num f
             then numericEvidence (getFieldCategories fields records) (Field.field_type f)
             else textEvidence (getFieldCategories fields records) (Field.field_type f))
            = true) as Hgives.
  { intros f Hin Hcat.
    destruct (getFieldCategories_evidence (Field.field_type f) fields records)
      as [-> ->].
    rewrite Hcat; simpl.
    destruct (Field.is_num f) eqn:Hnum; apply orb_true_iff; left;
      apply existsb_exists; exists f; (split; [exact Hin|]);
      unfold fieldGivesNumeric, fieldGivesText;
      rewrite Hcat, String.eqb_refl, Hnum; reflexivity. }
  split.
  - intros Hin Hcat. pose proof (Hgives field Hin Hcat) as H.
    split; [exact H|].
    destruct (Field.is_num field); rewrite H; [reflexivity|apply orb_true_r].
  - intros Hcat HN HT f Hin <-.
    pose proof (Hgives f Hin Hcat) as H.
    destruct (Field.is_num f); congruence.
Qed.

Lemma field_gives_evidence_witness :
  ((if Field.is_num notesField
    then numericEvidence (getFieldCategories [notesField] []) (Field.field_type notesField)
    else textEvidence (getFieldCategories [notesField] []) (Field.field_type notesField))
   = true
   ∧ (numericEvidence (getFieldCategories [notesField] []) (Field.field_type notesField)
      || textEvidence (getFieldCategories [notesField] []) (Field.field_type notesField))
     = true)
  ∧ (∀ f, In f [notesField] → Field.field_type f ≠ "dropdown").
Proof.
  destruct (field_gives_evidence [notesField] [] notesField "dropdown") as [H1 H2].
  split.
  - apply H1.
    + simpl. left. reflexivity.
    + vm_compute. reflexivity.
  - apply H2; vm_compute; reflexivity.
Defined.

(** ** Further properties of the predicate evaluator *)

Lemma applyFilters_as_filter (fields : list Field.t) (records : list Rec.t)
    (filters : list Filter.t) (allRecords : list Rec.t) :
  applyFilters fields records filters allRecords
  = List.filter (fun record => forallb (filterHolds fields records record) filters)
      allRecords.
Proof.
  unfold applyFilters. destruct filters as [|f fs]; simpl; [|reflexivity].
  symmetry. apply filter_all.
Qed.

Lemma filter_sublist (A : Type) (p : A → bool) (l : list A) :
  List.filter p l `sublist_of` l.
Proof.
  induction l as [|x l IH]; simpl; [constructor|].
  destruct (p x); [apply sublist_skip|apply sublist_cons]; exact IH.
Qed.

Lemma filter_sublist_weaker (A : Type) (p q : A → bool) (l : list A) :
  (∀ x, p x = true → q x = true) →
  List.filter p l `sublist_of` List.filter q l.
Proof.
  intros Hpq. induction l as [|x l IH]; simpl; [constructor|].
  destruct (p x) eqn:Hp.
  - rewrite (Hpq x Hp). apply sublist_skip, IH.
  - destruct (q x); [apply sublist_cons|]; exact IH.
Qed.

Lemma filter_filter_andb (A : Type) (p q : A → bool) (l : list A) :
  List.filter p (List.filter q l) = List.filter (fun x => p x && q x) l.
Proof.
  induction l as [|x l IH]; simpl; [reflexivity|].
  destruct (q x); simpl.
  - rewrite andb_true_r. destruct (p x); rewrite IH; reflexivity.
  - rewrite andb_false_r. exact IH.
Qed.

(** X1: applying two filter lists one after the other, with the same fields
    and categories, is applying their concatenation. *)
Theorem applyFilters_app (fields : list Field.t) (records : list Rec.t)
    (filters more : list Filter.t) (allRecords : list Rec.t) :
  applyFilters fields records (filters ++ more) allRecords
  = applyFilters fields records filters
      (applyFilters fields records more allRecords).
Proof.
  rewrite !applyFilters_as_filter, filter_filter_andb.
  apply filter_ext_bool. intros record. apply forallb_app.
Qed.

Lemma forallb_Permutation (A : Type) (p : A → bool) (l l' : list A) :
  l ≡ₚ l' → forallb p l = forallb p l'.
Proof.
  induction 1 as [|x l l' _ IH|x y l|l l' l'' _ IH1 _ IH2]; simpl.
  - reflexivity.
  - rewrite IH. reflexivity.
  - destruct (p x), (p y); reflexivity.
  - rewrite IH1. exact IH2.
Qed.

(** X2: the order of the clauses has no influence: permuting the filter list
    does not change the result. *)
Theorem applyFilters_Permutation (fields : list Field.t) (records : list Rec.t)
    (filters filters' : list Filter.t) (allRecords : list Rec.t) :
  filters ≡ₚ filters' →
  applyFilters fields records filters allRecords
  = applyFilters fields records filters' allRecords.
Proof.
  intros Hperm. rewrite !applyFilters_as_filter.
  apply filter_ext_bool. intros record. apply forallb_Permutation, Hperm.
Qed.

Lemma applyFilters_Permutation_witness :
  applyFilters scenarioA_fields scenarioA_records
    [unmarkedClause; containsClause] scenarioA_records
  = applyFilters scenarioA_fields scenarioA_records
      [containsClause; unmarkedClause] scenarioA_records.
Proof.
  apply (applyFilters_Permutation scenarioA_fields scenarioA_records
           [unmarkedClause; containsClause] [containsClause; unmarkedClause]).
  apply perm_swap.
Defined.

(** X3: [applyFilters] never invents or reorders a record, and more clauses
    keep fewer records: its result is a subsequence of [allRecords], and when
    every clause of [filters] is among [filters'], the result for [filters']
    is a subsequence of the result for [filters]. *)
Theorem applyFilters_antitone (fields : list Field.t) (records : list Rec.t)
    (filters filters' : list Filter.t) (allRecords : list Rec.t) :
  applyFilters fields records filters allRecords `sublist_of` allRecords
  ∧ (incl filters filters' →
     applyFilters fields records filters' allRecords
     `sublist_of` applyFilters fields records filters allRecords).
Proof.
  rewrite !applyFilters_as_filter. split; [apply filter_sublist|].
  intros Hincl.
  apply filter_sublist_weaker. intros record H.
  apply forallb_forall. intros f Hf.
  apply (proj1 (forallb_forall _ _) H). apply Hincl, Hf.
Qed.

Lemma applyFilters_antitone_witness :
  applyFilters scenarioA_fields scenarioA_records
    [unmarkedClause; containsClause] scenarioA_records
  `sublist_of` applyFilters scenarioA_fields scenarioA_records
                 [unmarkedClause] scenarioA_records.
Proof.
  apply (applyFilters_antitone scenarioA_fields scenarioA_records
           [unmarkedClause] [unmarkedClause; containsClause]).
  intros f [<-|[]]. simpl. left. reflexivity.
Defined.






(** X5: a record is kept only if it has a value under a field whose type is
    the type of the clause: a record none of whose entries belongs to a known
    field of that type, in particular a record without values, meets no
    clause and is dropped by every non-empty filter list. *)
Theorem record_without_field_is_dropped (fields : list Field.t)
    (records : list Rec.t) (filters : list Filter.t) (filter : Filter.t)
    (record : Rec.t) (allRecords : list Rec.t) :
  In filter filters →
  (∀ entry field, In entry (Rec.values record) →
     findField fields (fst entry) = Some field →
     Field.field_type field ≠ Filter.fieldType filter) →
  filterHolds fields records record filter = false
  ∧ ¬ In record (applyFilters fields records filters allRecords).
Proof.
  intros Hin Hnone.
  assert (filterHolds fields records record filter = false) as Hf.
  { unfold filterHolds, matchingFields.
    replace (List.filter _ (Rec.values record)) with (@nil (string * JS.Value));
      [reflexivity|].
    symmetry. induction (Rec.values record) as [|entry l IH]; simpl; [reflexivity|].
    destruct (findField fields (fst entry)) as [field|] eqn:E.
    - destruct (String.eqb_spec (Field.field_type field) (Filter.fieldType filter))
        as [Heq|_].
      + destruct (Hnone entry field (or_introl eq_refl) E Heq).
      + apply IH. intros e f He. apply Hnone. right. exact He.
    - apply IH. intros e f He. apply Hnone. right. exact He. }
  split; [exact Hf|].
  rewrite applyFilters_as_filter. intros H.
  apply filter_In in H as [_ H].
  pose proof (proj1 (forallb_forall _ _) H filter Hin) as H'.
  rewrite Hf in H'. discriminate H'.
Qed.

Lemma record_without_field_is_dropped_witness :
  filterHolds scenarioA_fields scenarioA_records (Rec.mk 9 []) unmarkedClause = false
  ∧ ¬ In (Rec.mk 9 [])
        (applyFilters scenarioA_fields scenarioA_records [unmarkedClause]
           (Rec.mk 9 [] :: scenarioA_records)).
Proof.
  apply (record_without_field_is_dropped scenarioA_fields scenarioA_records
           [unmarkedClause] unmarkedClause (Rec.mk 9 [])).
  - simpl. left. reflexivity.
  - intros entry field [].
Defined.

Lemma existsb_weaker (A : Type) (p q : A → bool) (l : list A) :
  (∀ x, p x = true → q x = true) → existsb p l = true → existsb q l = true.
Proof.
  intros Hpq H. apply existsb_exists in H as (x & Hx & Hp).
  apply existsb_exists. exists x. split; [exact Hx|apply Hpq, Hp].
Qed.

Lemma startsWith_includes (s t : string) :
  JS.startsWith s t = true → JS.includes s t = true.
Proof. intros H. destruct s as [|c s]; cbn [JS.includes]; rewrite H; reflexivity. Qed.

(** X6: the weaker operator holds wherever the stronger one does: a record
    that meets a clause with "starts with" meets the same clause with
    "contains", one that meets "greater than" meets "greater or equal", and
    one that meets "less than" meets "less or equal". *)
Theorem stronger_operator_implies_weaker (fields : list Field.t)
    (records : list Rec.t) (record : Rec.t) (filter : Filter.t) :
  (filterHolds fields records record (withOperator "like" filter) = true →
   filterHolds fields records record (withOperator "ilike" filter) = true)
  ∧ (filterHolds fields records record (withOperator "gt" filter) = true →
     filterHolds fields records record (withOperator "gte" filter) = true)
  ∧ (filterHolds fields records record (withOperator "lt" filter) = true →
     filterHolds fields records record (withOperator "lte" filter) = true).
Proof.
  unfold filterHolds, matchingFields. simpl.
  split; [|split]; apply existsb_weaker; intros entry;
    unfold valueMatches, numericSwitch, numericFallbackSwitch; simpl;
    destruct (from_option Category.hasNumeric false _);
    destruct (from_option Category.hasText false _);
    destruct (isNumericString _); simpl; try discriminate;
    try apply startsWith_includes;
    unfold JS.gt, JS.ge, JS.lt, JS.le;
    destruct (JS.compare _ _) as [[]|]; trivial.
Qed.

Lemma stronger_operator_implies_weaker_witness :
  filterHolds scenarioA_fields scenarioA_records
    (Rec.mk 2 [("Age", JS.VStr "20")]) (withOperator "gte" unmarkedClause) = true.
Proof.
  destruct (stronger_operator_implies_weaker scenarioA_fields scenarioA_records
              (Rec.mk 2 [("Age", JS.VStr "20")]) unmarkedClause) as (_ & H & _).
  apply H. vm_compute. reflexivity.
Defined.

Lemma toLowerChar_idempotent (c : ascii) :
  JS.toLowerChar (JS.toLowerChar c) = JS.toLowerChar c.
Proof. destruct c as [[] [] [] [] [] [] [] []]; reflexivity. Qed.

Lemma toLowerCase_idempotent (s : string) :
  JS.toLowerCase (JS.toLowerCase s) = JS.toLowerCase s.
Proof.
  induction s as [|c s IH]; simpl; [reflexivity|].
  rewrite toLowerChar_idempotent, IH. reflexivity.
Qed.

(** X7: "contains" and "starts with" ignore the case of letters on both
    sides: for such a clause, whether a stored value meets it depends on the
    clause's value and on the text of the stored value only through their
    lower-case forms; so the lower-cased value gives the same clause, and a
    stored string and its lower-case form are met alike. *)
Theorem text_operators_ignore_case (fields : list Field.t) (records : list Rec.t)
    (filter : Filter.t) (value' : string) (fieldValue fieldValue' : JS.Value) :
  operatorOf (Filter.operator filter) = Some OpIlike
  ∨ operatorOf (Filter.operator filter) = Some OpLike →
  JS.toLowerCase (Filter.value filter) = JS.toLowerCase value' →
  JS.toLowerCase (stringValueOf fieldValue)
  = JS.toLowerCase (stringValueOf fieldValue') →
  valueMatches fields records filter fieldValue
  = valueMatches fields records (withValue value' filter) fieldValue'.
Proof.
  intros Hop Hv Hs. unfold valueMatches, numericSwitch. simpl.
  rewrite Hv, Hs.
  destruct Hop as [-> | ->];
    destruct (_ && isNumericString (stringValueOf fieldValue));
    destruct (_ && isNumericString (stringValueOf fieldValue')); reflexivity.
Qed.

Lemma text_operators_ignore_case_witness :
  valueMatches scenarioA_fields scenarioA_records containsClause (JS.VStr "ABC 1")
  = valueMatches scenarioA_fields scenarioA_records
      (withValue (JS.toLowerCase "1") containsClause)
      (JS.VStr (JS.toLowerCase "ABC 1")).
Proof.
  apply (text_operators_ignore_case scenarioA_fields scenarioA_records
           containsClause (JS.toLowerCase "1")
           (JS.VStr "ABC 1") (JS.VStr (JS.toLowerCase "ABC 1"))).
  - left. reflexivity.
  - symmetry. apply toLowerCase_idempotent.
  - symmetry. apply toLowerCase_idempotent.
Defined.

(** ** Further properties of category inference and of the operator resolver *)

Lemma hasCategory_getFieldCategories (fields : list Field.t) (records : list Rec.t)
    (ft : string) :
  hasCategory (getFieldCategories fields records) ft = isCategoryType ft.
Proof.
  unfold getFieldCategories.
  destruct (fold_left_evidence ft _ (scanRecord fields) numericEvidence
              (recordGivesNumeric fields ft)
              (fun c r => proj1 (scanRecord_evidence ft fields c r))
              (fun c r => proj1 (proj2 (scanRecord_evidence ft fields c r)))
              records (fold_left scanField fields initialCategories)) as [-> _].
  destruct (fold_left_evidence ft _ scanField numericEvidence (fieldGivesNumeric ft)
              (hasCategory_scanField ft) (numericEvidence_scanField ft)
              fields initialCategories) as [-> _].
  apply hasCategory_initial.
Qed.

(** The label of a field type in a table; the empty string without one. *)
Lemma label_alter (f : Category.t → Category.t) (j ft : string)
    (categories : gmap string Category.t) :
  (∀ c, Category.label (f c) = Category.label c) →
  from_option Category.label "" (alter f j categories !! ft)
  = from_option Category.label "" (categories !! ft).
Proof.
  intros Hf. destruct (decide (j = ft)) as [->|Hne].
  - rewrite lookup_alter_eq. destruct (categories !! ft); simpl; [apply Hf|reflexivity].
  - rewrite lookup_alter_ne by exact Hne. reflexivity.
Qed.

Lemma label_scanField (ft : string) (categories : gmap string Category.t)
    (field : Field.t) :
  from_option Category.label "" (scanField categories field !! ft)
  = from_option Category.label "" (categories !! ft).
Proof.
  unfold scanField. destruct (_ || _); [|reflexivity].
  destruct (Field.is_num field); apply label_alter; reflexivity.
Qed.

Lemma label_scanValue (fields : list Field.t) (ft : string)
    (categories : gmap string Category.t) (entry : string * JS.Value) :
  from_option Category.label "" (scanValue fields categories entry !! ft)
  = from_option Category.label "" (categories !! ft).
Proof.
  unfold scanValue. destruct entry as [fieldName value].
  destruct (findField fields fieldName) as [field|]; [|reflexivity].
  destruct (categories !! Field.field_type field); [|reflexivity].
  destruct (isNumericValue value); [apply label_alter; reflexivity|].
  destruct (isTextValue value); [apply label_alter; reflexivity|reflexivity].
Qed.

Lemma fold_left_label (A : Type)
    (step : gmap string Category.t → A → gmap string Category.t) (ft : string) :
  (∀ categories a,
      from_option Category.label "" (step categories a !! ft)
      = from_option Category.label "" (categories !! ft)) →
  ∀ (l : list A) (categories : gmap string Category.t),
    from_option Category.label "" (fold_left step l categories !! ft)
    = from_option Category.label "" (categories !! ft).
Proof.
  intros Hstep l. induction l as [|a l IH]; intros categories; simpl;
    [reflexivity|].
  rewrite IH. apply Hstep.
Qed.

Lemma label_getFieldCategories (fields : list Field.t) (records : list Rec.t)
    (ft : string) :
  from_option Category.label "" (getFieldCategories fields records !! ft)
  = categoryLabel ft.
Proof.
  unfold getFieldCategories, categoryLabel.
  rewrite (fold_left_label _ (scanRecord fields) ft).
  - apply (fold_left_label _ scanField ft). intros; apply label_scanField.
  - intros categories record. unfold scanRecord.
    apply (fold_left_label _ (scanValue fields) ft). intros; apply label_scanValue.
Qed.

Lemma getFieldCategories_lookup (fields : list Field.t) (records : list Rec.t)
    (ft : string) :
  getFieldCategories fields records !! ft
  = if isCategoryType ft
    then Some (Category.mk (categoryLabel ft)
                 (existsb (fieldGivesText ft) fields
                  || existsb (recordGivesText fields ft) records)
                 (existsb (fieldGivesNumeric ft) fields
                  || existsb (recordGivesNumeric fields ft) records))
    else None.
Proof.
  pose proof (hasCategory_getFieldCategories fields records ft) as Hk.
  pose proof (label_getFieldCategories fields records ft) as Hl.
  destruct (getFieldCategories_evidence ft fields records) as [HN HT].
  unfold hasCategory, numericEvidence, textEvidence in *.
  destruct (getFieldCategories fields records !! ft) as [[l t n]|];
    destruct (isCategoryType ft); simpl in *; try discriminate Hk; [|reflexivity].
  rewrite Hl, HN, HT. reflexivity.
Qed.

(** X8: what [getFieldCategories] returns, in full: the table has exactly the
    categories text, multiline and dropdown, each with the label it started
    with; a category has numeric evidence exactly when a field of its type is
    declared numeric or an entry of some record, under the first field of
    that name, is a numeric value; and it has text evidence exactly when a
    field of its type is not declared numeric or such an entry is a non-blank
    string that is not numeric. *)
Theorem getFieldCategories_spec (fields : list Field.t) (records : list Rec.t)
    (ft : string) :
  getFieldCategories fields records !! ft
  = if isCategoryType ft
    then Some (Category.mk (categoryLabel ft)
                 (existsb (fieldGivesText ft) fields
                  || existsb (recordGivesText fields ft) records)
                 (existsb (fieldGivesNumeric ft) fields
                  || existsb (recordGivesNumeric fields ft) records))
    else None.
Proof.
  pose proof (hasCategory_getFieldCategories fields records ft) as Hk.
  pose proof (label_getFieldCategories fields records ft) as Hl.
  destruct (getFieldCategories_evidence ft fields records) as [HN HT].
  unfold hasCategory, numericEvidence, textEvidence in *.
  destruct (getFieldCategories fields records !! ft) as [[l t n]|];
    destruct (isCategoryType ft); simpl in *; try discriminate Hk; [|reflexivity].
  rewrite Hl, HN, HT. reflexivity.
Qed.

(** X9: inference depends only on which records there are, not on their
    order or on repetitions: two record collections with the same members
    give the same category table. *)
Theorem getFieldCategories_same_members (fields : list Field.t)
    (records records' : list Rec.t) :
  (∀ r, In r records ↔ In r records') →
  getFieldCategories fields records = getFieldCategories fields records'.
Proof.
  intros Hsame. apply map_eq. intros ft.
  rewrite !getFieldCategories_lookup.
  destruct (isCategoryType ft); [|reflexivity].
  assert (∀ p : Rec.t → bool, existsb p records = existsb p records') as E.
  { intros p. destruct (existsb p records) eqn:E1; symmetry.
    - apply (existsb_incl _ p records); [|exact E1].
      intros r Hr. apply Hsame, Hr.
    - destruct (existsb p records') eqn:E2; [|reflexivity].
      rewrite <- E1. symmetry. apply (existsb_incl _ p records'); [|exact E2].
      intros r Hr. apply Hsame, Hr. }
  rewrite !E. reflexivity.
Qed.

Lemma getFieldCategories_same_members_witness :
  getFieldCategories scenarioA_fields scenarioA_numeric_records
  = getFieldCategories scenarioA_fields
      (rev scenarioA_numeric_records ++ scenarioA_numeric_records).
Proof.
  apply (getFieldCategories_same_members scenarioA_fields scenarioA_numeric_records
           (rev scenarioA_numeric_records ++ scenarioA_numeric_records)).
  intros r. simpl. tauto.
Defined.


(** X11: the description of a category says what its operator list offers:
    it mentions numbers exactly when the numeric operators are offered and
    text exactly when the text operators are offered; a type without category
    has the empty description and no operator. *)
Theorem description_agrees_with_operators (fields : list Field.t)
    (records : list Rec.t) (ft : string) :
  (getDataTypeDescription fields records ft = "Filter by Text & Numbers"
   ∨ getDataTypeDescription fields records ft = "Filter by Numbers"
   ↔ In (Op.mk "gt" "Greater Than") (getOperatorsForFieldType fields records ft))
  ∧ (getDataTypeDescription fields records ft = "Filter by Text & Numbers"
     ∨ getDataTypeDescription fields records ft = "Filter by Text"
     ↔ In (Op.mk "ilike" "Contains") (getOperatorsForFieldType fields records ft))
  ∧ (getDataTypeDescription fields records ft = ""
     ↔ getOperatorsForFieldType fields records ft = []).
Proof.
  unfold getDataTypeDescription, getOperatorsForFieldType.
  destruct (fieldCategories fields records !! ft) as [category|].
  - destruct (Category.hasNumeric category), (Category.hasText category);
      simpl; repeat split;
      try (intros [H|H]; discriminate H);
      try (intros H; discriminate H);
      try (intros _; tauto);
      try (intros H; repeat (destruct H as [H|H]; [discriminate H|]); destruct H).
  - simpl. repeat split; try (intros [H|H]; discriminate H); intros [].
Qed.

(** ** Further properties of the query builders *)

Lemma allChars_append (p : ascii → bool) (a b : string) :
  allChars p (a +:+ b) = allChars p a && allChars p b.
Proof.
  induction a as [|x a IH]; [reflexivity|].
  rewrite append_cons. simpl. rewrite IH, andb_assoc. reflexivity.
Qed.

Lemma occurrences_append (c : ascii) (a b : string) :
  occurrences c (a +:+ b) = occurrences c a + occurrences c b.
Proof.
  induction a as [|x a IH]; [reflexivity|].
  rewrite append_cons. simpl. rewrite IH. lia.
Qed.

Lemma allChars_occurrences (p : ascii → bool) (c : ascii) (s : string) :
  allChars p s = true → p c = false → occurrences c s = 0.
Proof.
  intros Hs Hc. induction s as [|x s IH]; [reflexivity|].
  simpl in Hs. apply andb_true_iff in Hs as [Hx Hs]. simpl.
  rewrite (IH Hs). destruct (Ascii.eqb_spec x c) as [->|_]; [congruence|reflexivity].
Qed.

Lemma encodeChar_chars (c : ascii) : allChars isEncodedChar (JS.encodeChar c) = true.
Proof. destruct c as [[] [] [] [] [] [] [] []]; reflexivity. Qed.

(** [encodeURIComponent] writes unreserved characters and percent signs
    only. *)
Lemma encodeURIComponent_chars (s : string) :
  allChars isEncodedChar (JS.encodeURIComponent s) = true.
Proof.
  induction s as [|c s IH]; [reflexivity|].
  simpl. rewrite allChars_append, encodeChar_chars, IH. reflexivity.
Qed.

(** X12: a field name or a value cannot add a parameter to the query: the
    query parameter of a clause has exactly one [=], and apart from it only
    unreserved characters and percent signs, whatever the field name and the
    value are; so it has no [&], no [?], no [#], no space and no quotation
    mark. *)
Theorem queryParam_is_one_parameter (filter : Filter.t) (param : string) :
  queryParam filter = Some param →
  occurrences "=" param = 1
  ∧ (∀ c, isEncodedChar c = false → c ≠ "="%char → occurrences c param = 0)
  ∧ occurrences "&" param = 0.
Proof.
  intros H.
  assert (allChars (fun c => isEncodedChar c || Ascii.eqb c "=") param = true
          ∧ occurrences "=" param = 1) as [Hall Heq].
  { revert H. unfold queryParam, queryParamOf.
    pose proof (encodeURIComponent_chars
                  (quoteMark +:+ Filter.field filter +:+ quoteMark)) as Hf.
    pose proof (encodeURIComponent_chars (Filter.value filter)) as Hv.
    pose proof (allChars_occurrences isEncodedChar "="
                  (JS.encodeURIComponent
                     (quoteMark +:+ Filter.field filter +:+ quoteMark))
                  Hf eq_refl) as Hf0.
    pose proof (allChars_occurrences isEncodedChar "="
                  (JS.encodeURIComponent (Filter.value filter)) Hv eq_refl) as Hv0.
    assert (∀ s, allChars isEncodedChar s = true →
                 allChars (fun c => isEncodedChar c || Ascii.eqb c "=") s = true)
      as Hweak.
    { intros s. induction s as [|x s IH]; simpl; [reflexivity|].
      intros Hs. apply andb_true_iff in Hs as [-> Hs]. rewrite (IH Hs). reflexivity. }
    apply Hweak in Hf, Hv.
    generalize dependent (JS.encodeURIComponent (Filter.value filter)).
    generalize dependent
      (JS.encodeURIComponent (quoteMark +:+ Filter.field filter +:+ quoteMark)).
    intros ef Hf Hf0 ev Hv Hv0.
    destruct (Filter.isNumeric filter);
      destruct (operatorOf (Filter.operator filter)) as [[]|];
      intros E; try discriminate E; injection E as <-;
      rewrite !allChars_append, !occurrences_append, Hf, Hv, Hf0, Hv0;
      split; reflexivity. }
  split; [exact Heq|]. split.
  - intros c Hc Hne. apply (allChars_occurrences _ c param Hall).
    rewrite Hc. simpl. destruct (Ascii.eqb_spec c "="); congruence.
  - apply (allChars_occurrences _ "&"%char param Hall). reflexivity.
Qed.

Lemma queryParam_is_one_parameter_witness :
  occurrences "=" "values-%3E%22a%26b%3Dc%22=eq.x%26y%3D1" = 1
  ∧ (∀ c, isEncodedChar c = false → c ≠ "="%char →
          occurrences c "values-%3E%22a%26b%3Dc%22=eq.x%26y%3D1" = 0)
  ∧ occurrences "&" "values-%3E%22a%26b%3Dc%22=eq.x%26y%3D1" = 0.
Proof.
  apply (queryParam_is_one_parameter
           (Filter.mk 0 "text" "a&b=c" "eq" "x&y=1" "and" false)).
  vm_compute. reflexivity.
Defined.

Lemma queryParam_None (filter : Filter.t) :
  queryParam filter = None ↔ operatorOf (Filter.operator filter) = None.
Proof.
  unfold queryParam, queryParamOf.
  destruct (operatorOf (Filter.operator filter)) as [[]|]; split; intros H;
    try discriminate H; reflexivity.
Qed.

Lemma separatedClauses_known_only (filters : list Filter.t) :
  separatedClauses (knownClauses filters) = separatedClauses filters.
Proof.
  induction filters as [|f rest IH]; [reflexivity|].
  unfold knownClauses in *. simpl.
  destruct (operatorOf (Filter.operator f)) as [o|] eqn:E.
  - simpl. rewrite IH. reflexivity.
  - rewrite (proj2 (queryParam_None f) E). exact IH.
Qed.

(** X13: a clause whose operator is none of the seven is left out of the
    query without an error.  After the first clause such clauses change
    nothing; a filter list with unknown operators only asks for all records
    of the form, like the empty list; and so does [filterRecordsSimple] with
    an unknown operator. *)
Theorem unknown_operators_are_skipped (formId : JS.Value) (filter : Filter.t)
    (filters : list Filter.t) (field operator value : string) :
  filterRecordsByCriteria formId (filter :: filters)
  = filterRecordsByCriteria formId (filter :: knownClauses filters)
  ∧ (knownClauses filters = [] →
     filterRecordsByCriteria formId filters = getRecordsByFormId formId)
  ∧ (operatorOf operator = None →
     filterRecordsSimple formId field operator value = getRecordsByFormId formId).
Proof.
  split; [|split].
  - unfold filterRecordsByCriteria. simpl.
    rewrite !forEachFilter_later, separatedClauses_known_only. reflexivity.
  - intros Hnone. destruct filters as [|f rest]; [reflexivity|].
    unfold filterRecordsByCriteria, getRecordsByFormId. simpl.
    rewrite forEachFilter_later, <- separatedClauses_known_only.
    unfold knownClauses in Hnone. simpl in Hnone.
    unfold appendClause.
    destruct (operatorOf (Filter.operator f)) as [o|] eqn:E; [discriminate Hnone|].
    rewrite (proj2 (queryParam_None f) E).
    unfold knownClauses. rewrite Hnone. simpl. rewrite append_empty_r. reflexivity.
  - intros Hop. unfold filterRecordsSimple, queryParamOf. rewrite Hop. reflexivity.
Qed.

Lemma unknown_operators_are_skipped_witness :
  filterRecordsByCriteria (JS.VNum (JS.Dec 5 0))
    [withOperator "neq" unmarkedClause; withOperator "between" unmarkedClause]
  = getRecordsByFormId (JS.VNum (JS.Dec 5 0))
  ∧ filterRecordsSimple (JS.VNum (JS.Dec 5 0)) "Age" "neq" "15"
    = getRecordsByFormId (JS.VNum (JS.Dec 5 0)).
Proof.
  destruct (unknown_operators_are_skipped (JS.VNum (JS.Dec 5 0)) unmarkedClause
              [withOperator "neq" unmarkedClause; withOperator "between" unmarkedClause]
              "Age" "neq" "15") as (_ & H2 & H3).
  split; [apply H2|apply H3]; vm_compute; reflexivity.
Defined.

Lemma decodeHead_encodeChar (c : ascii) (rest : string) :
  decodeHead (JS.encodeChar c +:+ rest) = Some (c, rest).
Proof. destruct c as [[] [] [] [] [] [] [] []]; reflexivity. Qed.

(** [encodeURIComponent] loses nothing: different strings are encoded
    differently. *)
Lemma encodeURIComponent_injective (s t : string) :
  JS.encodeURIComponent s = JS.encodeURIComponent t → s = t.
Proof.
  revert t. induction s as [|c s IH]; intros [|d t] H.
  - reflexivity.
  - apply (f_equal decodeHead) in H. simpl JS.encodeURIComponent in H.
    rewrite decodeHead_encodeChar in H. discriminate H.
  - apply (f_equal decodeHead) in H. simpl JS.encodeURIComponent in H.
    rewrite decodeHead_encodeChar in H. discriminate H.
  - apply (f_equal decodeHead) in H. simpl JS.encodeURIComponent in H.
    rewrite !decodeHead_encodeChar in H. injection H as -> H.
    f_equal. apply IH, H.
Qed.

Lemma length_append (a b : string) :
  String.length (a +:+ b) = String.length a + String.length b.
Proof.
  induction a as [|x a IH]; [reflexivity|].
  rewrite append_cons. simpl. rewrite IH. reflexivity.
Qed.

Lemma append_same_length (a a' b b' : string) :
  a +:+ b = a' +:+ b' → String.length a = String.length a' → a = a' ∧ b = b'.
Proof.
  revert a'. induction a as [|x a IH]; intros [|x' a'] H Hlen;
    try discriminate Hlen.
  - split; [reflexivity|exact H].
  - rewrite !append_cons in H. injection H as -> H.
    injection Hlen as Hlen. destruct (IH a' H Hlen) as [-> ->].
    split; reflexivity.
Qed.

Lemma append_cancel_r (a a' s : string) : a +:+ s = a' +:+ s → a = a'.
Proof.
  intros H. apply (append_same_length a a' s s H).
  apply (f_equal String.length) in H. rewrite !length_append in H. lia.
Qed.

(** Two strings that agree up to their first occurrence of [c] and after it. *)
Lemma split_at_first (c : ascii) (a a' b b' : string) :
  a +:+ String c b = a' +:+ String c b' →
  occurrences c a = 0 → occurrences c a' = 0 →
  a = a' ∧ b = b'.
Proof.
  revert a'. induction a as [|x a IH]; intros [|x' a'] H Ha Ha'.
  - injection H as ->. split; reflexivity.
  - rewrite append_cons in H. injection H as <- _.
    simpl in Ha'. rewrite Ascii.eqb_refl in Ha'. discriminate Ha'.
  - rewrite append_cons in H. injection H as -> _.
    simpl in Ha. rewrite Ascii.eqb_refl in Ha. discriminate Ha.
  - rewrite !append_cons in H. injection H as -> H.
    simpl in Ha, Ha'.
    destruct (IH a' H) as [-> ->]; [lia|lia|]. split; reflexivity.
Qed.

(** The left-hand side and the right-hand side of a query parameter. *)
Lemma queryParamOf_sides (jsonOperator field operator value param : string) :
  queryParamOf jsonOperator field operator value = Some param →
  ∃ o comparator suffix,
    operatorOf operator = Some o
    ∧ param = ("values" +:+ jsonOperator +:+ "%22"
               +:+ JS.encodeURIComponent (field +:+ quoteMark))
              +:+ String "=" (comparator +:+ JS.encodeURIComponent value +:+ suffix)
    ∧ (comparator, suffix)
      = match o with
        | OpEq => ("eq.", "")
        | OpIlike => ("ilike.*", "*")
        | OpLike => ("like.", "%")
        | OpGt => ("gt.", "")
        | OpLt => ("lt.", "")
        | OpGte => ("gte.", "")
        | OpLte => ("lte.", "")
        end.
Proof.
  unfold queryParamOf. rewrite encodeURIComponent_quoted.
  generalize (JS.encodeURIComponent (field +:+ quoteMark)).
  generalize (JS.encodeURIComponent value). intros ev ef.
  destruct (operatorOf operator) as [o|]; [|discriminate].
  intros H. exists o.
  destruct o; injection H as <-; eexists _, _;
    (split; [reflexivity|]); (split; [|reflexivity]);
    rewrite ?append_empty_r, !append_assoc; reflexivity.
Qed.

(** X14: the query parameter of a clause determines the clause: two clauses
    with the same parameter have the same numeric mark, the same operator
    (among the seven), the same field name and the same value. *)
Theorem queryParam_injective (filter filter' : Filter.t) (param : string) :
  queryParam filter = Some param →
  queryParam filter' = Some param →
  Filter.isNumeric filter = Filter.isNumeric filter'
  ∧ operatorOf (Filter.operator filter) = operatorOf (Filter.operator filter')
  ∧ Filter.field filter = Filter.field filter'
  ∧ Filter.value filter = Filter.value filter'.
Proof.
  unfold queryParam. intros H H'.
  apply queryParamOf_sides in H as (o & cmp & suf & Ho & -> & Hcs).
  apply queryParamOf_sides in H' as (o' & cmp' & suf' & Ho' & E & Hcs').
  rewrite Ho, Ho'.
  pose proof (allChars_occurrences isEncodedChar "=" _
                (encodeURIComponent_chars (Filter.field filter +:+ quoteMark)) eq_refl)
    as Hf.
  pose proof (allChars_occurrences isEncodedChar "=" _
                (encodeURIComponent_chars (Filter.field filter' +:+ quoteMark)) eq_refl)
    as Hf'.
  apply split_at_first in E as [El Er].
  - (* the left-hand sides *)
    assert (Filter.isNumeric filter = Filter.isNumeric filter'
            ∧ JS.encodeURIComponent (Filter.field filter +:+ quoteMark)
              = JS.encodeURIComponent (Filter.field filter' +:+ quoteMark))
      as [Hnum Hfield].
    { revert El.
      generalize (JS.encodeURIComponent (Filter.field filter +:+ quoteMark)).
      generalize (JS.encodeURIComponent (Filter.field filter' +:+ quoteMark)).
      intros ef' ef.
      destruct (Filter.isNumeric filter), (Filter.isNumeric filter'); simpl;
        rewrite !append_cons; intros El; try discriminate El;
        (split; [reflexivity|]); injection El as El; exact El. }
    apply encodeURIComponent_injective, append_cancel_r in Hfield.
    (* the right-hand sides *)
    assert (o = o' ∧ JS.encodeURIComponent (Filter.value filter)
                     = JS.encodeURIComponent (Filter.value filter')) as [-> Hvalue].
    { revert Er.
      generalize (JS.encodeURIComponent (Filter.value filter)).
      generalize (JS.encodeURIComponent (Filter.value filter')).
      intros ev' ev.
      destruct o, o'; injection Hcs as -> ->; injection Hcs' as -> ->;
        rewrite ?append_empty_r, ?append_cons; intros Er; try discriminate Er;
        (split; [reflexivity|]);
        repeat (injection Er as Er);
        change ("" +:+ ev +:+ ?s = "" +:+ ev' +:+ ?s')
          with (ev +:+ s = ev' +:+ s') in Er;
        rewrite ?append_empty_r in Er; try exact Er;
        apply (append_cancel_r _ _ _ Er). }
    apply encodeURIComponent_injective in Hvalue.
    repeat split; assumption.
  - rewrite !occurrences_append, Hf.
    destruct (Filter.isNumeric filter); reflexivity.
  - rewrite !occurrences_append, Hf'.
    destruct (Filter.isNumeric filter'); reflexivity.
Qed.

Lemma queryParam_injective_witness :
  Filter.isNumeric unmarkedClause
  = Filter.isNumeric (Filter.setLogic "or" unmarkedClause)
  ∧ operatorOf (Filter.operator unmarkedClause)
    = operatorOf (Filter.operator (Filter.setLogic "or" unmarkedClause))
  ∧ Filter.field unmarkedClause = Filter.field (Filter.setLogic "or" unmarkedClause)
  ∧ Filter.value unmarkedClause = Filter.value (Filter.setLogic "or" unmarkedClause).
Proof.
  apply (queryParam_injective unmarkedClause (Filter.setLogic "or" unmarkedClause)
           "values-%3E%22Age%22=gt.15"); vm_compute; reflexivity.
Defined.

(** ** The filter builder *)

Lemma offered_operator_known (fields : list Field.t) (records : list Rec.t)
    (ft : string) (o : Op.t) :
  In o (getOperatorsForFieldType fields records ft) →
  operatorOf (Op.value o) ≠ None.
Proof.
  unfold getOperatorsForFieldType.
  destruct (fieldCategories fields records !! ft) as [category|]; [|intros []].
  destruct (Category.hasNumeric category), (Category.hasText category); simpl;
    intros Ho; repeat (destruct Ho as [<-|Ho]; [vm_compute; discriminate|]);
    destruct Ho.
Qed.

Lemma operatorOffered_In (s : Screen.t) (operator : string) :
  operatorOffered s operator = true →
  Draft.fieldType (Screen.currentFilter s) ≠ ""
  ∧ In operator
      (map Op.value
         (getOperatorsForFieldType (Screen.fields s) (Screen.records s)
            (Draft.fieldType (Screen.currentFilter s)))).
Proof.
  unfold operatorOffered. intros H. apply andb_true_iff in H as [Hft Hex].
  split.
  - intros E. rewrite E in Hft. discriminate Hft.
  - apply existsb_exists in Hex as (o & Ho & Heq).
    apply String.eqb_eq in Heq as <-. apply in_map, Ho.
Qed.

Lemma fieldTypeOffered_evidence (s : Screen.t) (type : string) :
  fieldTypeOffered s type = true →
  textEvidence (getFieldCategories (Screen.fields s) (Screen.records s)) type = true
  ∨ numericEvidence (getFieldCategories (Screen.fields s) (Screen.records s)) type
    = true.
Proof.
  unfold fieldTypeOffered, fieldCategories, textEvidence, numericEvidence.
  destruct (getFieldCategories _ _ !! type) as [c|]; simpl; [|discriminate].
  intros H. apply orb_true_iff in H. exact H.
Qed.

Lemma evidence_isCategoryType (fields : list Field.t) (records : list Rec.t)
    (ft : string) :
  textEvidence (getFieldCategories fields records) ft = true
  ∨ numericEvidence (getFieldCategories fields records) ft = true →
  isCategoryType ft = true.
Proof.
  destruct (getFieldCategories_evidence ft fields records) as [-> ->].
  destruct (isCategoryType ft); [reflexivity|]. intros [H|H]; discriminate H.
Qed.

Lemma draftComplete_nonempty (draft : Draft.t) :
  draftComplete draft = true →
  Draft.fieldType draft ≠ "" ∧ Draft.operator draft ≠ "" ∧ Draft.value draft ≠ "".
Proof.
  unfold draftComplete. intros H.
  apply andb_true_iff in H as [H Hv]. apply andb_true_iff in H as [Hf Ho].
  repeat split; intros E; rewrite E in *; discriminate.
Qed.

Lemma Forall_filter_bool (A : Type) (P : A → Prop) (p : A → bool) (l : list A) :
  Forall P l → Forall P (List.filter p l).
Proof.
  induction 1 as [|x l Hx _ IH]; simpl; [constructor|].
  destruct (p x); [constructor; assumption|exact IH].
Qed.

Lemma step_wellFormed (s s' : Screen.t) (e : Event) :
  step s e = Some s' →
  draftWellFormed (Screen.currentFilter s) ∧ Forall wellFormedFilter (Screen.filters s) →
  draftWellFormed (Screen.currentFilter s') ∧ Forall wellFormedFilter (Screen.filters s').
Proof.
  intros Hstep [[Hdf Hdo] Hfs].
  assert (draftWellFormed emptyDraft) as Hempty by (split; left; reflexivity).
  destruct e; simpl in Hstep.
  - injection Hstep as <-. split; [split|]; assumption.
  - injection Hstep as <-. split; [split|]; assumption.
  - injection Hstep as <-. split; [split|]; assumption.
  - injection Hstep as <-. split; [split|]; assumption.
  - destruct (fieldTypeOffered s type) eqn:E; [|discriminate Hstep].
    injection Hstep as <-. simpl. split; [|exact Hfs]. split; [right|left; reflexivity].
    apply (evidence_isCategoryType (Screen.fields s) (Screen.records s)).
    apply fieldTypeOffered_evidence, E.
  - destruct (operatorOffered s operator) eqn:E; [|discriminate Hstep].
    injection Hstep as <-. simpl. split; [|exact Hfs]. split; [exact Hdf|right].
    apply operatorOffered_In in E as [_ E].
    apply in_map_iff in E as (o & <- & Ho).
    apply (offered_operator_known _ _ _ _ Ho).
  - destruct (negb _); [|discriminate Hstep].
    injection Hstep as <-. split; [split|]; assumption.
  - destruct (Nat.ltb _ _); [|discriminate Hstep].
    injection Hstep as <-. split; [split|]; assumption.
  - destruct (Nat.ltb _ _); [|discriminate Hstep].
    injection Hstep as <-. split; [split|]; assumption.
  - injection Hstep as <-. split; [exact Hempty|exact Hfs].
  - destruct (draftComplete (Screen.currentFilter s)) eqn:E; [|discriminate Hstep].
    injection Hstep as <-. simpl. split; [exact Hempty|].
    apply draftComplete_nonempty in E as (Ef & Eo & Ev).
    apply Forall_app. split; [exact Hfs|]. constructor; [|constructor].
    unfold wellFormedFilter. simpl.
    destruct Hdf as [Hdf|Hdf]; [contradiction|].
    destruct Hdo as [Hdo|Hdo]; [contradiction|].
    repeat split; assumption.
  - destruct (existsb _ _); [|discriminate Hstep].
    injection Hstep as <-. simpl. split; [split; assumption|].
    apply Forall_filter_bool, Hfs.
  - destruct (Nat.ltb _ _); [|discriminate Hstep].
    injection Hstep as <-. simpl. split; [split; assumption|constructor].
  - destruct (Nat.ltb _ _); [|discriminate Hstep].
    injection Hstep as <-. split; [split|]; assumption.
  - injection Hstep as <-. split; [split|]; assumption.
Qed.

(** X15: whatever happens on the screen, every filter of the filter list is
    one that the evaluator can handle: its field type is text, multiline or
    dropdown, its operator is one of the seven that the [switch] statements
    know, and its value is not empty.  So from the screen the evaluator never
    reaches its [default] cases. *)
Theorem filters_always_well_formed (events : list Event) (s : Screen.t) :
  run initialScreen events = Some s →
  Forall wellFormedFilter (Screen.filters s).
Proof.
  assert (∀ s0, draftWellFormed (Screen.currentFilter s0)
                ∧ Forall wellFormedFilter (Screen.filters s0) →
                run s0 events = Some s →
                Forall wellFormedFilter (Screen.filters s)) as H.
  { induction events as [|e rest IH]; intros s0 Hinv Hrun; simpl in Hrun.
    - injection Hrun as <-. apply Hinv.
    - destruct (step s0 e) as [s1|] eqn:E; [|discriminate Hrun].
      apply (IH s1); [|exact Hrun]. apply (step_wellFormed s0 s1 e E Hinv). }
  apply H. split; [split; left; reflexivity|constructor].
Qed.

Lemma filters_always_well_formed_witness :
  Forall wellFormedFilter
    [filterOfDraft (Draft.mk "text" "gt" "15" "and") 1700000000000].
Proof.
  apply (filters_always_well_formed
           [FieldsLoaded scenarioA_fields; Refreshed scenarioA_records;
            OpenBuilder; ChooseFieldType "text"; ChooseOperator "gt";
            ChangeValue "15"; AddFilter 1700000000000]
           (Screen.mk scenarioA_fields scenarioA_records
              [filterOfDraft (Draft.mk "text" "gt" "15" "and") 1700000000000]
              emptyDraft false)).
  vm_compute. reflexivity.
Defined.




Lemma map_filter_sublist (A B : Type) (f : A → B) (p : A → bool) (l : list A) :
  map f (List.filter p l) `sublist_of` map f l.
Proof.
  induction l as [|x l IH]; simpl; [constructor|].
  destruct (p x); simpl; [apply sublist_skip|apply sublist_cons]; exact IH.
Qed.

Lemma step_ids (s s' : Screen.t) (e : Event) :
  step s e = Some s' →
  map Filter.id (Screen.filters s')
  `sublist_of` map Filter.id (Screen.filters s) ++ timestamps [e].
Proof.
  intros Hstep.
  destruct e; simpl in Hstep;
    try (injection Hstep as <-; simpl; rewrite app_nil_r; reflexivity);
    try (destruct (Nat.ltb _ _); [|discriminate Hstep];
         injection Hstep as <-; simpl; rewrite app_nil_r;
         first [reflexivity|apply sublist_nil_l]).
  - destruct (fieldTypeOffered s type); [|discriminate Hstep].
    injection Hstep as <-. simpl. rewrite app_nil_r. reflexivity.
  - destruct (operatorOffered s operator); [|discriminate Hstep].
    injection Hstep as <-. simpl. rewrite app_nil_r. reflexivity.
  - destruct (negb _); [|discriminate Hstep].
    injection Hstep as <-. simpl. rewrite app_nil_r. reflexivity.
  - destruct (draftComplete _); [|discriminate Hstep].
    injection Hstep as <-. simpl. rewrite map_app. reflexivity.
  - destruct (existsb _ _); [|discriminate Hstep].
    injection Hstep as <-. simpl. rewrite app_nil_r. apply map_filter_sublist.
Qed.

Lemma timestamps_cons (e : Event) (events : list Event) :
  timestamps (e :: events) = timestamps [e] ++ timestamps events.
Proof. unfold timestamps. destruct e; reflexivity. Qed.

Lemma run_ids (events : list Event) (s s' : Screen.t) :
  run s events = Some s' →
  map Filter.id (Screen.filters s')
  `sublist_of` map Filter.id (Screen.filters s) ++ timestamps events.
Proof.
  revert s. induction events as [|e rest IH]; intros s Hrun; simpl in Hrun.
  - injection Hrun as <-. rewrite app_nil_r. reflexivity.
  - destruct (step s e) as [s1|] eqn:E; [|discriminate Hrun].
    rewrite timestamps_cons, app_assoc.
    transitivity (map Filter.id (Screen.filters s1) ++ timestamps rest).
    + apply (IH s1 Hrun).
    + apply sublist_app; [apply (step_ids s s1 e E)|reflexivity].
Qed.

Lemma increasing_above (x : Z) (l : list Z) :
  increasing (x :: l) = true → Forall (fun y => (x < y)%Z) l.
Proof.
  revert x. induction l as [|y l IH]; intros x H; [constructor|].
  simpl in H. apply andb_true_iff in H as [Hxy H]. apply Z.ltb_lt in Hxy.
  constructor; [exact Hxy|].
  apply (Forall_impl _ _ _ (IH y H)). intros z Hz. lia.
Qed.

Lemma increasing_NoDup (l : list Z) : increasing l = true → NoDup l.
Proof.
  induction l as [|x l IH]; intros H; constructor.
  - intros Hin. apply increasing_above in H.
    apply (proj1 (Forall_forall _ _) H) in Hin. lia.
  - apply IH. destruct l as [|y l]; [reflexivity|].
    simpl in H. apply andb_true_iff in H as [_ H]. exact H.
Qed.

Lemma filter_remove_one (ids : list Z) (id : Z) :
  NoDup ids → In id ids →
  length (List.filter (fun x => negb (Z.eqb x id)) ids) = pred (length ids).
Proof.
  induction 1 as [|x l Hx Hnd IH]; intros Hin; [destruct Hin|].
  simpl. destruct (Z.eqb_spec x id) as [->|Hne]; simpl.
  - clear IH Hin. f_equal.
    induction l as [|y l IH]; simpl; [reflexivity|].
    apply not_elem_of_cons in Hx as [Hy Hx].
    destruct (Z.eqb_spec y id) as [->|_]; [contradiction|].
    simpl. f_equal. apply IH; [exact Hx|]. apply NoDup_cons_1_2 in Hnd. exact Hnd.
  - destruct Hin as [->|Hin]; [contradiction|].
    rewrite (IH Hin). destruct l; [destruct Hin|reflexivity].
Qed.

(** X17: when the clock reading of every addition is later than that of the
    addition before it, the filters of the list have distinct ids in every
    state that the screen reaches, so that the remove button of a filter
    takes exactly that one filter out. *)
Theorem filter_ids_distinct (events : list Event) (s s' : Screen.t) (id : Z) :
  increasing (timestamps events) = true →
  run initialScreen events = Some s →
  NoDup (map Filter.id (Screen.filters s))
  ∧ (step s (RemoveFilter id) = Some s' →
     length (Screen.filters s') = pred (length (Screen.filters s))).
Proof.
  intros Hsorted Hrun.
  assert (NoDup (map Filter.id (Screen.filters s))) as Hnd.
  { apply (sublist_NoDup _ (timestamps events)).
    - apply increasing_NoDup, Hsorted.
    - apply (run_ids events initialScreen s Hrun). }
  split; [exact Hnd|].
  simpl. destruct (existsb _ _) eqn:E; [|discriminate].
  intros H. injection H as <-. simpl.
  apply existsb_exists in E as (f & Hf & Heq). apply Z.eqb_eq in Heq.
  rewrite <- (length_map Filter.id), <- (length_map Filter.id (Screen.filters s)).
  rewrite <- (filter_remove_one (map Filter.id (Screen.filters s)) id Hnd).
  - f_equal. clear. induction (Screen.filters s) as [|x l IH]; simpl; [reflexivity|].
    destruct (negb _); simpl; rewrite IH; reflexivity.
  - rewrite <- Heq. apply in_map, Hf.
Qed.

Lemma filter_ids_distinct_witness :
  NoDup (map Filter.id
           [filterOfDraft (Draft.mk "text" "gt" "15" "and") 1700000000000;
            filterOfDraft (Draft.mk "text" "ilike" "1" "or") 1700000000500])
  ∧ length [filterOfDraft (Draft.mk "text" "gt" "15" "and") 1700000000000]
    = pred (length
              [filterOfDraft (Draft.mk "text" "gt" "15" "and") 1700000000000;
               filterOfDraft (Draft.mk "text" "ilike" "1" "or") 1700000000500]).
Proof.
  destruct (filter_ids_distinct
              [FieldsLoaded scenarioA_fields; Refreshed scenarioA_records;
               ChooseFieldType "text"; ChooseOperator "gt"; ChangeValue "15";
               AddFilter 1700000000000;
               ChooseFieldType "text"; ChooseOperator "ilike"; ChangeValue "1";
               ChooseLogicOr; AddFilter 1700000000500]
              (Screen.mk scenarioA_fields scenarioA_records
                 [filterOfDraft (Draft.mk "text" "gt" "15" "and") 1700000000000;
                  filterOfDraft (Draft.mk "text" "ilike" "1" "or") 1700000000500]
                 emptyDraft false)
              (Screen.mk scenarioA_fields scenarioA_records
                 [filterOfDraft (Draft.mk "text" "gt" "15" "and") 1700000000000]
                 emptyDraft false)
              1700000000500) as [H1 H2]; [vm_compute; reflexivity ..|].
  split; [exact H1|]. apply H2. vm_compute. reflexivity.
Defined.

(** ** Submitting a record *)

Lemma lookup_assign (name key : string) (value : option JS.Value)
    (object : gmap string JS.Value) :
  assign name value object !! key
  = if decide (name = key) then value else object !! key.
Proof.
  unfold assign. destruct value as [v|].
  - rewrite lookup_insert. reflexivity.
  - rewrite lookup_delete. destruct (decide (name = key)); reflexivity.
Qed.

(** The fields that come after leave the property of another name alone. *)
Lemma byField_other (fields : list FieldDef.t) (recordData : gmap string JS.Value)
    (object : gmap string JS.Value) (key : string) :
  ¬ In key (map (fun d => Field.name (FieldDef.field d)) fields) →
  fold_left
    (fun object d =>
       assign (Field.name (FieldDef.field d))
         (processedValue d (recordData !! Field.name (FieldDef.field d))) object)
    fields object !! key
  = object !! key.
Proof.
  revert object. induction fields as [|d rest IH]; intros object Hnot; simpl;
    [reflexivity|].
  rewrite IH by (intros H; apply Hnot; right; exact H).
  rewrite lookup_assign. destruct (decide _) as [E|_]; [|reflexivity].
  destruct Hnot. left. exact E.
Qed.

Lemma byField_lookup (fields : list FieldDef.t) (recordData : gmap string JS.Value)
    (object : gmap string JS.Value) (d : FieldDef.t) :
  List.NoDup (map (fun d => Field.name (FieldDef.field d)) fields) →
  In d fields →
  fold_left
    (fun object d =>
       assign (Field.name (FieldDef.field d))
         (processedValue d (recordData !! Field.name (FieldDef.field d))) object)
    fields object !! Field.name (FieldDef.field d)
  = processedValue d (recordData !! Field.name (FieldDef.field d)).
Proof.
  revert object. induction fields as [|d0 rest IH]; intros object Hnd Hin;
    [destruct Hin|].
  simpl in Hnd. apply List.NoDup_cons_iff in Hnd as [Hnot Hnd]. simpl.
  destruct Hin as [->|Hin].
  - rewrite byField_other by exact Hnot.
    rewrite lookup_assign. destruct (decide _); [reflexivity|contradiction].
  - apply IH; assumption.
Qed.

Lemma locationNames_other (locationNames : list (string * string))
    (object : gmap string JS.Value) (key : string) :
  (∀ entry, In entry locationNames → key ≠ fst entry +:+ " Name") →
  fold_left
    (fun object entry =>
       assign (fst entry +:+ " Name") (Some (JS.VStr (snd entry))) object)
    locationNames object !! key
  = object !! key.
Proof.
  revert object. induction locationNames as [|entry rest IH]; intros object Hnot;
    cbn [fold_left]; [reflexivity|].
  rewrite IH by (intros e He; apply Hnot; right; exact He).
  rewrite lookup_assign. destruct (decide _) as [E|_]; [|reflexivity].
  destruct (Hnot entry (or_introl eq_refl)). symmetry. exact E.
Qed.

(** The property of a field in the record is the processed input of the
    field, when names are not repeated and no location name takes the
    property. *)
Lemma processedValues_lookup (fields : list FieldDef.t)
    (recordData : gmap string JS.Value) (locationNames : list (string * string))
    (d : FieldDef.t) :
  List.NoDup (map (fun d => Field.name (FieldDef.field d)) fields) →
  In d fields →
  (∀ entry, In entry locationNames →
            Field.name (FieldDef.field d) ≠ fst entry +:+ " Name") →
  processedValues fields recordData locationNames !! Field.name (FieldDef.field d)
  = processedValue d (recordData !! Field.name (FieldDef.field d)).
Proof.
  intros Hnd Hin Hloc. unfold processedValues.
  rewrite locationNames_other by exact Hloc.
  apply byField_lookup; assumption.
Qed.

Lemma parseFloatOrZero_not_NaN (v : JS.Value) :
  JS.isNaN (parseFloatOrZero v) = false.
Proof.
  unfold parseFloatOrZero.
  destruct (JS.truthy (JS.VNum (JS.parseFloat (JS.ToString v)))) eqn:E;
    [|reflexivity].
  simpl in E. apply andb_true_iff in E as [E _].
  apply negb_true_iff in E. exact E.
Qed.

Lemma processedValue_numeric (d : FieldDef.t) (value : option JS.Value)
    (v : JS.Value) :
  Field.is_num (FieldDef.field d) = true →
  processedValue d value = Some v →
  (∃ n, v = JS.VNum n ∧ JS.isNaN n = false) ∨ JS.truthy v = false.
Proof.
  intros Hnum. unfold processedValue. rewrite Hnum.
  destruct value as [v0|]; [|discriminate]. simpl.
  destruct (JS.truthy v0) eqn:E; intros H; injection H as <-.
  - left. eexists. split; [reflexivity|apply parseFloatOrZero_not_NaN].
  - right. exact E.
Qed.

Lemma not_string_not_text (v : JS.Value) :
  JS.isString v = false → isTextValue v = false.
Proof. unfold isTextValue. intros ->. rewrite andb_false_r. reflexivity. Qed.

Lemma falsy_not_text (v : JS.Value) : JS.truthy v = false → isTextValue v = false.
Proof. unfold isTextValue. intros ->. reflexivity. Qed.

Lemma number_or_falsy_not_text (v : JS.Value) :
  (∃ n, v = JS.VNum n ∧ JS.isNaN n = false) ∨ JS.truthy v = false →
  isTextValue v = false ∧ isTextValue (jsonRoundTrip v) = false.
Proof.
  intros [(n & -> & Hn)|Hf].
  - split; [apply not_string_not_text; reflexivity|].
    destruct n; apply not_string_not_text; reflexivity.
  - split; [apply falsy_not_text, Hf|].
    destruct v as [|b|n|s]; simpl.
    + reflexivity.
    + apply not_string_not_text. reflexivity.
    + destruct n; apply not_string_not_text; reflexivity.
    + apply falsy_not_text, Hf.
Qed.

Lemma existsb_none_in (A : Type) (p : A → bool) (l : list A) :
  (∀ x, In x l → p x = false) → existsb p l = false.
Proof.
  intros Hp. induction l as [|x l IH]; simpl; [reflexivity|].
  rewrite (Hp x (or_introl eq_refl)). apply IH.
  intros y Hy. apply Hp. right. exact Hy.
Qed.

Lemma submitted_numeric_shape (fields : list FieldDef.t)
    (recordData : gmap string JS.Value) (locationNames : list (string * string))
    (values : gmap string JS.Value) (d : FieldDef.t) (v : JS.Value) :
  handleSubmitRecord fields recordData locationNames = Some values →
  List.NoDup (map (fun d => Field.name (FieldDef.field d)) fields) →
  In d fields →
  Field.is_num (FieldDef.field d) = true →
  (∀ entry, In entry locationNames →
            Field.name (FieldDef.field d) ≠ fst entry +:+ " Name") →
  values !! Field.name (FieldDef.field d) = Some v →
  ((∃ n, v = JS.VNum n ∧ JS.isNaN n = false) ∨ JS.truthy v = false)
  ∧ isTextValue (jsonRoundTrip v) = false.
Proof.
  unfold handleSubmitRecord. destruct (Nat.ltb _ _); [discriminate|].
  intros H Hnd Hin Hnum Hloc Hv. injection H as <-.
  rewrite (processedValues_lookup _ _ _ d Hnd Hin Hloc) in Hv.
  pose proof (processedValue_numeric d _ v Hnum Hv) as Hshape.
  split; [exact Hshape|]. apply number_or_falsy_not_text, Hshape.
Qed.

(** X18: the record form stores numbers for numeric fields: when a record is
    submitted, the property of a field that is declared numeric holds a
    number that is not NaN (0 when the input does not start with a number),
    or the untouched falsy input; it is never a non-blank string, before or
    after the trip through JSON, so it gives category inference no text
    evidence.  Field names are taken to be distinct, and the property not to
    be the name property of a location. *)
Theorem submitted_numeric_is_number (fields : list FieldDef.t)
    (recordData : gmap string JS.Value) (locationNames : list (string * string))
    (values : gmap string JS.Value) (d : FieldDef.t) (v : JS.Value) :
  handleSubmitRecord fields recordData locationNames = Some values →
  List.NoDup (map (fun d => Field.name (FieldDef.field d)) fields) →
  In d fields →
  Field.is_num (FieldDef.field d) = true →
  (∀ entry, In entry locationNames →
            Field.name (FieldDef.field d) ≠ fst entry +:+ " Name") →
  values !! Field.name (FieldDef.field d) = Some v →
  ((∃ n, v = JS.VNum n ∧ JS.isNaN n = false) ∨ JS.truthy v = false)
  ∧ isTextValue v = false
  ∧ isTextValue (jsonRoundTrip v) = false.
Proof.
  intros H Hnd Hin Hnum Hloc Hv.
  destruct (submitted_numeric_shape fields recordData locationNames values d v
              H Hnd Hin Hnum Hloc Hv) as [Hshape Hjson].
  split; [exact Hshape|]. split; [|exact Hjson].
  apply number_or_falsy_not_text, Hshape.
Qed.

Lemma submitted_numeric_is_number_witness :
  ((∃ n, JS.VNum (JS.Dec 0 0) = JS.VNum n ∧ JS.isNaN n = false)
   ∨ JS.truthy (JS.VNum (JS.Dec 0 0)) = false)
  ∧ isTextValue (JS.VNum (JS.Dec 0 0)) = false
  ∧ isTextValue (jsonRoundTrip (JS.VNum (JS.Dec 0 0))) = false.
Proof.
  apply (submitted_numeric_is_number [ageField] ageInput [("Place", "Home")]
           (processedValues [ageField] ageInput [("Place", "Home")]) ageField).
  - reflexivity.
  - repeat constructor. intros [].
  - left. reflexivity.
  - reflexivity.
  - intros entry [<-|[]]. discriminate.
  - vm_compute. reflexivity.
Defined.

Lemma filter_nil_forall (A : Type) (p : A → bool) (l : list A) (x : A) :
  List.filter p l = [] → In x l → p x = false.
Proof.
  intros Hnil Hin. destruct (p x) eqn:E; [|reflexivity].
  assert (In x (List.filter p l)) as H by (apply filter_In; split; assumption).
  rewrite Hnil in H. destruct H.
Qed.

(** X19: a record is submitted only when every required field is filled in,
    and then the property of a required field is never blank: it holds a
    number that is not NaN or a value whose text has more than white space.
    Field names are taken to be distinct, and the property not to be the name
    property of a location. *)
Theorem submitted_required_not_blank (fields : list FieldDef.t)
    (recordData : gmap string JS.Value) (locationNames : list (string * string))
    (values : gmap string JS.Value) (d : FieldDef.t) :
  handleSubmitRecord fields recordData locationNames = Some values →
  List.NoDup (map (fun d => Field.name (FieldDef.field d)) fields) →
  In d fields →
  FieldDef.required d = true →
  (∀ entry, In entry locationNames →
            Field.name (FieldDef.field d) ≠ fst entry +:+ " Name") →
  isBlankInput (recordData !! Field.name (FieldDef.field d)) = false
  ∧ ∃ v, values !! Field.name (FieldDef.field d) = Some v
         ∧ ((∃ n, v = JS.VNum n ∧ JS.isNaN n = false)
            ∨ isBlankInput (Some v) = false).
Proof.
  unfold handleSubmitRecord.
  destruct (missingFields fields recordData) as [|m ms] eqn:Hmiss; [|discriminate].
  intros H Hnd Hin Hreq Hloc. injection H as <-.
  unfold missingFields in Hmiss. apply map_eq_nil in Hmiss.
  pose proof (filter_nil_forall _ _ _ d Hmiss Hin) as Hd.
  cbv beta in Hd. rewrite Hreq in Hd. simpl in Hd.
  split; [exact Hd|].
  rewrite (processedValues_lookup _ _ _ d Hnd Hin Hloc).
  destruct (recordData !! Field.name (FieldDef.field d)) as [v0|];
    [|discriminate Hd].
  unfold processedValue.
  destruct (Field.is_num (FieldDef.field d) && JS.truthy v0).
  - eexists. split; [reflexivity|]. left.
    eexists. split; [reflexivity|apply parseFloatOrZero_not_NaN].
  - exists v0. split; [reflexivity|]. right. exact Hd.
Qed.

Lemma submitted_required_not_blank_witness :
  isBlankInput (ageInput !! Field.name (FieldDef.field ageField)) = false
  ∧ ∃ v, processedValues [ageField] ageInput [("Place", "Home")]
           !! Field.name (FieldDef.field ageField) = Some v
         ∧ ((∃ n, v = JS.VNum n ∧ JS.isNaN n = false)
            ∨ isBlankInput (Some v) = false).
Proof.
  apply (submitted_required_not_blank [ageField] ageInput [("Place", "Home")]).
  - reflexivity.
  - repeat constructor. intros [].
  - left. reflexivity.
  - reflexivity.
  - intros entry [<-|[]]. discriminate.
Defined.

Lemma findField_In (fields : list Field.t) (name : string) (field : Field.t) :
  findField fields name = Some field → In field fields ∧ Field.name field = name.
Proof.
  unfold findField. intros H. apply find_some in H as [Hin Heq].
  apply String.eqb_eq in Heq. split; assumption.
Qed.

(** X20: with records that were submitted through the record form, a
    category all of whose fields are declared numeric has no text evidence:
    the record form leaves no non-blank string under a numeric field, so the
    record scan finds none.  Field names are taken to be distinct. *)
Theorem submitted_records_give_no_text (fields : list FieldDef.t)
    (records : list Rec.t) (ft : string) :
  List.NoDup (map (fun d => Field.name (FieldDef.field d)) fields) →
  (∀ r, In r records → submittedRecord fields r) →
  (∀ d, In d fields → Field.field_type (FieldDef.field d) = ft →
        Field.is_num (FieldDef.field d) = true) →
  textEvidence (getFieldCategories (map FieldDef.field fields) records) ft = false.
Proof.
  intros Hnd Hsub Hnum.
  destruct (getFieldCategories_evidence ft (map FieldDef.field fields) records)
    as [_ ->].
  apply andb_false_iff. right. apply orb_false_iff. split.
  - apply existsb_none_in. intros f Hf.
    apply in_map_iff in Hf as (d & <- & Hd).
    unfold fieldGivesText.
    destruct (String.eqb_spec (Field.field_type (FieldDef.field d)) ft) as [E|_];
      [|rewrite andb_false_r; reflexivity].
    rewrite (Hnum d Hd E). apply andb_false_r.
  - apply existsb_none_in. intros r Hr.
    unfold recordGivesText. apply existsb_none_in. intros [name v] Hentry.
    unfold entryGivesText. simpl.
    destruct (findField (map FieldDef.field fields) name) as [f|] eqn:Ef;
      [|reflexivity].
    apply findField_In in Ef as [Hf Hname].
    apply in_map_iff in Hf as (d & <- & Hd).
    destruct (String.eqb_spec (Field.field_type (FieldDef.field d)) ft) as [E|_];
      [|reflexivity].
    destruct (Hsub r Hr) as (recordData & locationNames & values & Hs & Hloc & Hvals).
    destruct (Hvals name v Hentry) as (v' & Hv' & ->).
    rewrite <- Hname in Hv'.
    assert (∀ entry, In entry locationNames →
                     Field.name (FieldDef.field d) ≠ fst entry +:+ " Name") as Hloc'.
    { intros entry He. apply (Hloc entry He d Hd). }
    destruct (submitted_numeric_shape fields recordData locationNames values d v'
                Hs Hnd Hd (Hnum d Hd E) Hloc' Hv') as [_ ->].
    rewrite andb_false_r. reflexivity.
Qed.

Lemma submitted_records_give_no_text_witness :
  textEvidence
    (getFieldCategories (map FieldDef.field [ageField])
       [Rec.mk 1 [("Age", JS.VNum (JS.Dec 0 0))]]) "text" = false.
Proof.
  apply (submitted_records_give_no_text [ageField]
           [Rec.mk 1 [("Age", JS.VNum (JS.Dec 0 0))]] "text").
  - repeat constructor. intros [].
  - intros r [<-|[]].
    exists ageInput, [], (processedValues [ageField] ageInput []).
    split; [reflexivity|]. split; [intros entry []|].
    intros name v [E|[]]. injection E as <- <-.
    exists (JS.VNum (JS.Dec 0 0)). split; vm_compute; reflexivity.
  - intros d [<-|[]] _. reflexivity.
Defined.

(** ** Adding a field and saving a form *)

Lemma rev_app_append (s t : string) : String.rev_app s t = String.rev s +:+ t.
Proof.
  revert t. induction s as [|a s IH]; intros t; [reflexivity|].
  unfold String.rev. simpl. rewrite IH, (IH (String a "")), append_assoc.
  reflexivity.
Qed.

Lemma rev_cons (a : ascii) (s : string) :
  String.rev (String a s) = String.rev s +:+ String a "".
Proof. unfold String.rev at 1. simpl. apply rev_app_append. Qed.

Lemma rev_append (a b : string) :
  String.rev (a +:+ b) = String.rev b +:+ String.rev a.
Proof.
  induction a as [|x a IH].
  - change ("" +:+ b) with b. rewrite append_empty_r. reflexivity.
  - rewrite append_cons, !rev_cons, IH, append_assoc. reflexivity.
Qed.

Lemma rev_involutive (s : string) : String.rev (String.rev s) = s.
Proof.
  induction s as [|a s IH]; [reflexivity|].
  rewrite rev_cons, rev_append, IH. reflexivity.
Qed.

Lemma startsClean_trimStart (s : string) : startsClean (JS.trimStart s) = true.
Proof.
  induction s as [|c s IH]; [reflexivity|].
  simpl. destruct (JS.isWhiteSpace c) eqn:E; [exact IH|].
  simpl. rewrite E. reflexivity.
Qed.

Lemma trimStart_clean (s : string) : startsClean s = true → JS.trimStart s = s.
Proof.
  destruct s as [|c s]; [reflexivity|]. simpl. intros H.
  apply negb_true_iff in H. rewrite H. reflexivity.
Qed.

(** [trimStart] takes white space off the front, and [trimEnd] off the end. *)
Lemma trimStart_suffix (s : string) :
  ∃ w, s = w +:+ JS.trimStart s ∧ allChars JS.isWhiteSpace w = true.
Proof.
  induction s as [|c s (w & IH & Hw)]; [exists ""; split; reflexivity|].
  simpl. destruct (JS.isWhiteSpace c) eqn:E.
  - exists (String c w). rewrite append_cons, <- IH. simpl. rewrite E, Hw.
    split; reflexivity.
  - exists "". split; reflexivity.
Qed.

Lemma allChars_rev (p : ascii → bool) (s : string) :
  allChars p (String.rev s) = allChars p s.
Proof.
  induction s as [|c s IH]; [reflexivity|].
  rewrite rev_cons, allChars_append, IH. simpl.
  rewrite andb_true_r, andb_comm. reflexivity.
Qed.

Lemma trimEnd_prefix (s : string) :
  ∃ w, s = JS.trimEnd s +:+ w ∧ allChars JS.isWhiteSpace w = true.
Proof.
  unfold JS.trimEnd.
  destruct (trimStart_suffix (String.rev s)) as (w & E & Hw).
  exists (String.rev w). split; [|rewrite allChars_rev; exact Hw].
  rewrite <- rev_append, <- E, rev_involutive. reflexivity.
Qed.

Lemma startsClean_prefix (s w : string) :
  startsClean (s +:+ w) = true → startsClean s = true.
Proof. destruct s as [|c s]; [reflexivity|]. rewrite append_cons. trivial. Qed.

(** What [trim] returns has no white space at either end, and [trim] leaves
    such a string as it is. *)
Lemma isTrimmed_trim (s : string) : isTrimmed (JS.trim s) = true.
Proof.
  unfold isTrimmed, JS.trim. apply andb_true_iff. split.
  - destruct (trimEnd_prefix (JS.trimStart s)) as (w & E & _).
    apply (startsClean_prefix _ w). rewrite <- E. apply startsClean_trimStart.
  - unfold JS.trimEnd. rewrite rev_involutive. apply startsClean_trimStart.
Qed.

Lemma trim_isTrimmed (s : string) : isTrimmed s = true → JS.trim s = s.
Proof.
  unfold isTrimmed, JS.trim, JS.trimEnd. intros H.
  apply andb_true_iff in H as [H1 H2].
  rewrite (trimStart_clean s H1), (trimStart_clean _ H2). apply rev_involutive.
Qed.

Lemma trim_idempotent (s : string) : JS.trim (JS.trim s) = JS.trim s.
Proof. apply trim_isTrimmed, isTrimmed_trim. Qed.

Lemma occurrences_trim (c : ascii) (s : string) :
  occurrences c (JS.trim s) ≤ occurrences c s.
Proof.
  unfold JS.trim.
  destruct (trimStart_suffix s) as (w1 & E1 & _).
  destruct (trimEnd_prefix (JS.trimStart s)) as (w2 & E2 & _).
  rewrite E1 at 2. rewrite E2 at 2. rewrite !occurrences_append. lia.
Qed.

Lemma split_pieces (sep : ascii) (s : string) (piece : string) :
  In piece (split sep s) → occurrences sep piece = 0.
Proof.
  revert piece. induction s as [|c s IH]; intros piece; simpl.
  - intros [<-|[]]. reflexivity.
  - destruct (Ascii.eqb_spec c sep) as [->|Hne].
    + intros [<-|H]; [reflexivity|apply IH, H].
    + destruct (split sep s) as [|p ps].
      * intros [<-|[]]. simpl.
        destruct (Ascii.eqb_spec c sep); [contradiction|reflexivity].
      * intros [<-|H].
        -- simpl. destruct (Ascii.eqb_spec c sep); [contradiction|].
           apply IH. left. reflexivity.
        -- apply IH. right. exact H.
Qed.

(** X21: the choices of a dropdown field are the pieces of the options text
    between commas, trimmed, without the empty ones: every choice is
    non-empty, has no white space at either end and no comma. *)
Theorem optionsArray_choices (dropdownOptions choice : string) :
  In choice (optionsArray dropdownOptions) →
  choice ≠ ""
  ∧ isTrimmed choice = true
  ∧ occurrences "," choice = 0.
Proof.
  unfold optionsArray. intros H. apply filter_In in H as [H Hne].
  apply in_map_iff in H as (piece & <- & Hpiece).
  split; [|split].
  - intros E. rewrite E in Hne. discriminate Hne.
  - apply isTrimmed_trim.
  - pose proof (occurrences_trim "," piece) as Hle.
    rewrite (split_pieces "," dropdownOptions piece Hpiece) in Hle. lia.
Qed.

Lemma optionsArray_choices_witness :
  "Blue" ≠ "" ∧ isTrimmed "Blue" = true ∧ occurrences "," "Blue" = 0.
Proof.
  apply (optionsArray_choices " Red ,, Blue,Green ").
  vm_compute. right. left. reflexivity.
Defined.

Lemma split_no_separator (sep : ascii) (s : string) :
  occurrences sep s = 0 → split sep s = [s].
Proof.
  induction s as [|c s IH]; [reflexivity|].
  simpl. destruct (Ascii.eqb_spec c sep) as [_|_]; [discriminate|].
  simpl. intros H. rewrite (IH H). reflexivity.
Qed.

Lemma split_at_separator (sep : ascii) (a b : string) :
  occurrences sep a = 0 → split sep (a +:+ String sep b) = a :: split sep b.
Proof.
  induction a as [|c a IH]; intros H.
  - change ("" +:+ String sep b) with (String sep b). simpl.
    rewrite Ascii.eqb_refl. reflexivity.
  - rewrite append_cons. simpl in *.
    destruct (Ascii.eqb_spec c sep) as [_|_]; [discriminate|].
    rewrite (IH H). reflexivity.
Qed.

Lemma trimStart_whitespace (w s : string) :
  allChars JS.isWhiteSpace w = true → JS.trimStart (w +:+ s) = JS.trimStart s.
Proof.
  induction w as [|c w IH]; [reflexivity|].
  intros H. simpl in H. apply andb_true_iff in H as [Hc Hw].
  rewrite append_cons. cbn [JS.trimStart]. rewrite Hc. apply IH, Hw.
Qed.

Lemma trim_padded (w s : string) :
  allChars JS.isWhiteSpace w = true → isTrimmed s = true → JS.trim (w +:+ s) = s.
Proof.
  intros Hw Hs. unfold JS.trim. rewrite (trimStart_whitespace w s Hw).
  apply (trim_isTrimmed s Hs).
Qed.

Lemma optionsArray_padded (w : string) (choices : list string) :
  allChars JS.isWhiteSpace w = true →
  occurrences "," w = 0 →
  choices ≠ [] →
  Forall (fun c => c ≠ "" ∧ isTrimmed c = true ∧ occurrences "," c = 0) choices →
  optionsArray (w +:+ String.concat ", " choices) = choices.
Proof.
  intros Hw Hw0 Hne Hall. revert w Hw Hw0.
  induction Hall as [|c rest (Hc & Ht & H0) Hrest IH]; [contradiction|].
  intros w Hw Hw0. unfold optionsArray in *.
  assert (negb (String.eqb c "") = true) as Hcne.
  { apply negb_true_iff, String.eqb_neq, Hc. }
  destruct rest as [|c' rest'].
  - simpl String.concat.
    rewrite split_no_separator by (rewrite occurrences_append; lia).
    cbn [map List.filter]. rewrite (trim_padded w c Hw Ht), Hcne. reflexivity.
  - change (String.concat ", " (c :: c' :: rest'))
      with (c +:+ ", " +:+ String.concat ", " (c' :: rest')).
    rewrite <- append_assoc.
    change (", " +:+ String.concat ", " (c' :: rest'))
      with (String "," (" " +:+ String.concat ", " (c' :: rest'))).
    rewrite split_at_separator by (rewrite occurrences_append; lia).
    cbn [map List.filter].
    rewrite (trim_padded w c Hw Ht), Hcne.
    f_equal. apply (IH ltac:(discriminate) " "); reflexivity.
Qed.

(** X22: what is typed is what is stored: the options text made of a
    non-empty list of choices joined by a comma and a space gives back these
    choices, when they are non-empty, without white space at either end and
    without comma; and the field is accepted with them. *)
Theorem optionsArray_round_trip (fieldName : string) (required isNumeric : bool)
    (choices : list string) :
  JS.trim fieldName ≠ "" →
  choices ≠ [] →
  Forall (fun c => c ≠ "" ∧ isTrimmed c = true ∧ occurrences "," c = 0) choices →
  optionsArray (String.concat ", " choices) = choices
  ∧ FieldData.options
      <$> handleAddField fieldName "dropdown" required isNumeric
            (String.concat ", " choices)
    = Some (Some choices).
Proof.
  intros Hname Hne Hall.
  assert (optionsArray (String.concat ", " choices) = choices) as Hround.
  { apply (optionsArray_padded "" choices); [reflexivity|reflexivity|exact Hne|exact Hall]. }
  split; [exact Hround|].
  unfold handleAddField.
  destruct (String.eqb_spec (JS.trim fieldName) "") as [E|_]; [contradiction|].
  simpl.
  destruct (String.eqb_spec (JS.trim (String.concat ", " choices)) "") as [E|_].
  - exfalso. destruct choices as [|c rest]; [contradiction|].
    assert (In c (optionsArray (String.concat ", " (c :: rest)))) as Hin
      by (rewrite Hround; left; reflexivity).
    unfold optionsArray in Hin. apply filter_In in Hin as [Hin Hcne].
    apply in_map_iff in Hin as (piece & Hp & Hpiece).
    (* a blank text has blank pieces only *)
    destruct (trimStart_suffix (String.concat ", " (c :: rest))) as (w1 & E1 & Hw1).
    destruct (trimEnd_prefix (JS.trimStart (String.concat ", " (c :: rest))))
      as (w2 & E2 & Hw2).
    unfold JS.trim in E. rewrite E in E2. change ("" +:+ w2) with w2 in E2.
    rewrite E2 in E1.
    assert (allChars JS.isWhiteSpace (String.concat ", " (c :: rest)) = true) as Hws.
    { rewrite E1, allChars_append, Hw1, Hw2. reflexivity. }
    assert (occurrences "," (String.concat ", " (c :: rest)) = 0) as H0.
    { apply (allChars_occurrences JS.isWhiteSpace); [exact Hws|reflexivity]. }
    rewrite (split_no_separator _ _ H0) in Hpiece.
    destruct Hpiece as [<-|[]].
    unfold JS.trim in Hp. rewrite E in Hp. subst c.
    inversion Hall as [|? ? (Hc & _) _]. contradiction.
  - simpl. rewrite Hround. reflexivity.
Qed.

Lemma optionsArray_round_trip_witness :
  optionsArray (String.concat ", " ["Red"; "Dark blue"; "Green"])
  = ["Red"; "Dark blue"; "Green"]
  ∧ FieldData.options
      <$> handleAddField " Colour " "dropdown" false true
            (String.concat ", " ["Red"; "Dark blue"; "Green"])
    = Some (Some ["Red"; "Dark blue"; "Green"]).
Proof.
  apply (optionsArray_round_trip " Colour " false true
           ["Red"; "Dark blue"; "Green"]).
  - vm_compute. discriminate.
  - discriminate.
  - repeat constructor; vm_compute; try reflexivity; discriminate.
Defined.

Lemma handleAddField_Some (fieldName fieldType : string) (required isNumeric : bool)
    (dropdownOptions : string) (fd : FieldData.t) :
  handleAddField fieldName fieldType required isNumeric dropdownOptions = Some fd →
  JS.trim fieldName ≠ ""
  ∧ FieldData.name fd = JS.trim fieldName
  ∧ FieldData.field_type fd = fieldType
  ∧ FieldData.is_num fd
    = (if String.eqb fieldType "photo/video" || String.eqb fieldType "location"
          || String.eqb fieldType "dropdown"
       then false else isNumeric)
  ∧ (fieldType = "dropdown" →
     JS.trim dropdownOptions ≠ ""
     ∧ FieldData.options fd = Some (optionsArray dropdownOptions))
  ∧ (fieldType ≠ "dropdown" → FieldData.options fd = None).
Proof.
  unfold handleAddField.
  destruct (String.eqb_spec (JS.trim fieldName) "") as [|Hname]; [discriminate|].
  destruct (String.eqb_spec fieldType "dropdown") as [Hd|Hd]; simpl.
  - destruct (String.eqb_spec (JS.trim dropdownOptions) "") as [|Hopt];
      [discriminate|].
    intros H. injection H as <-. simpl. rewrite Hd. simpl.
    repeat split; try assumption; try reflexivity. contradiction.
  - intros H. injection H as <-. simpl.
    repeat split; try assumption; try reflexivity; contradiction.
Qed.

(** X23: a field that the field form sends has a name that is not empty and
    has no white space at either end; it is numeric only if the switch was on
    and its type is none of photo/video, location and dropdown; and it has
    options exactly when it is a dropdown, which is accepted only with an
    options text that is not blank.  Likewise the form name and description
    that the edit form sends are trimmed, and the name is not empty. *)
Theorem sent_names_are_trimmed (fieldName fieldType : string)
    (required isNumeric : bool) (dropdownOptions : string) (fd : FieldData.t)
    (formName formDescription name description : string) :
  (handleAddField fieldName fieldType required isNumeric dropdownOptions = Some fd →
   FieldData.name fd ≠ ""
   ∧ isTrimmed (FieldData.name fd) = true
   ∧ (FieldData.is_num fd = true →
      isNumeric = true ∧ FieldData.field_type fd ≠ "photo/video"
      ∧ FieldData.field_type fd ≠ "location" ∧ FieldData.field_type fd ≠ "dropdown")
   ∧ (FieldData.options fd ≠ None ↔ FieldData.field_type fd = "dropdown")
   ∧ (FieldData.field_type fd = "dropdown" → JS.trim dropdownOptions ≠ ""))
  ∧ (handleSaveForm formName formDescription = Some (name, description) →
     name ≠ "" ∧ isTrimmed name = true ∧ isTrimmed description = true).
Proof.
  split.
  - intros H.
    apply handleAddField_Some in H as (Hname & En & Et & Enum & Hdrop & Hother).
    rewrite En, Et. split; [exact Hname|]. split; [apply isTrimmed_trim|].
    split; [|split].
    + rewrite Enum.
      destruct (String.eqb_spec fieldType "photo/video") as [|H1]; [discriminate|].
      destruct (String.eqb_spec fieldType "location") as [|H2]; [discriminate|].
      destruct (String.eqb_spec fieldType "dropdown") as [|H3]; [discriminate|].
      simpl. intros ->. repeat split; assumption.
    + split.
      * intros Hopt. destruct (String.eqb_spec fieldType "dropdown") as [E|E];
          [exact E|]. destruct Hopt. apply Hother, E.
      * intros E. destruct (Hdrop E) as [_ ->]. discriminate.
    + intros E. apply (Hdrop E).
  - unfold handleSaveForm.
    destruct (String.eqb_spec (JS.trim formName) "") as [|Hname]; [discriminate|].
    intros H. injection H as <- <-.
    split; [exact Hname|]. split; apply isTrimmed_trim.
Qed.

Lemma sent_names_are_trimmed_witness :
  (FieldData.name (FieldData.mk "Age" "text" true true 0 None) ≠ ""
   ∧ isTrimmed (FieldData.name (FieldData.mk "Age" "text" true true 0 None)) = true
   ∧ (FieldData.is_num (FieldData.mk "Age" "text" true true 0 None) = true →
      true = true
      ∧ FieldData.field_type (FieldData.mk "Age" "text" true true 0 None) ≠ "photo/video"
      ∧ FieldData.field_type (FieldData.mk "Age" "text" true true 0 None) ≠ "location"
      ∧ FieldData.field_type (FieldData.mk "Age" "text" true true 0 None) ≠ "dropdown")
   ∧ (FieldData.options (FieldData.mk "Age" "text" true true 0 None) ≠ None
      ↔ FieldData.field_type (FieldData.mk "Age" "text" true true 0 None) = "dropdown")
   ∧ (FieldData.field_type (FieldData.mk "Age" "text" true true 0 None) = "dropdown" →
      JS.trim "" ≠ ""))
  ∧ ("Survey" ≠ "" ∧ isTrimmed "Survey" = true ∧ isTrimmed "" = true).
Proof.
  destruct (sent_names_are_trimmed "  Age " "text" true true ""
              (FieldData.mk "Age" "text" true true 0 None)
              " Survey" "  " "Survey" "") as [H1 H2].
  split; [apply H1|apply H2]; vm_compute; reflexivity.
Defined.

(** X24: the numeric switch is off for every dropdown field that the field
    form sends, so with fields made by the form the dropdown category has
    numeric evidence only when a record holds a numeric value under a
    dropdown field; with no record it has none. *)
Theorem dropdown_numeric_only_from_records (fields : list Field.t)
    (records : list Rec.t) :
  (∀ f, In f fields →
        ∃ fieldName fieldType required isNumeric dropdownOptions fd,
          handleAddField fieldName fieldType required isNumeric dropdownOptions
          = Some fd
          ∧ f = fieldOfData fd) →
  numericEvidence (getFieldCategories fields records) "dropdown"
  = existsb (recordGivesNumeric fields "dropdown") records.
Proof.
  intros Hmade.
  destruct (getFieldCategories_evidence "dropdown" fields records) as [-> _].
  change (isCategoryType "dropdown") with true. simpl.
  rewrite existsb_none_in; [reflexivity|].
  intros f Hf.
  destruct (Hmade f Hf) as (n & t & r & i & o & fd & Hfd & ->).
  apply handleAddField_Some in Hfd as (_ & _ & Et & Enum & _).
  unfold fieldGivesNumeric, fieldOfData. simpl. rewrite Enum, Et.
  destruct (String.eqb_spec t "dropdown") as [->|_];
    [reflexivity|rewrite andb_false_r; reflexivity].
Qed.

Lemma dropdown_numeric_only_from_records_witness :
  numericEvidence
    (getFieldCategories [Field.mk "Colour" "dropdown" false] []) "dropdown"
  = existsb (recordGivesNumeric [Field.mk "Colour" "dropdown" false] "dropdown") [].
Proof.
  apply (dropdown_numeric_only_from_records [Field.mk "Colour" "dropdown" false] []).
  intros f [<-|[]].
  exists "Colour", "dropdown", false, true, "Red, Blue",
    (FieldData.mk "Colour" "dropdown" false false 0 (Some ["Red"; "Blue"])).
  split; vm_compute; reflexivity.
Defined.
